(** * dagd: the MQTT interface (mqtt.c)

    A shallow embedding of [mqtt.c]: the notification registry
    ([notify], [mqtt_subscribe]), the rate-limited status publisher
    ([mqtt_status]) and the reception path ([process_epoch], [message]),
    together with the parts of the C library the reception path calls
    ([strtoul], [strncmp], [strchr]). *)

From Stdlib Require Import ZArith List String Ascii Bool Lia.
Import ListNotations.

Local Open Scope string_scope.
Local Open Scope list_scope.
Local Open Scope Z_scope.

(** ** C strings

    A C string is modelled by the [string] of its bytes up to, and not
    including, the terminating NUL. *)

Definition code (c : ascii) : Z := Z.of_N (N_of_ascii c).

(** [message] copies [payloadlen] bytes into [buf] and stores a NUL after
    them; every later use of [buf] is through C string functions, which stop
    at the first NUL, whether it is the one stored or one of the payload. *)
Fixpoint cstr (payload : string) : string :=
  match payload with
  | EmptyString => EmptyString
  | String c r => if code c =? 0 then EmptyString else String c (cstr r)
  end.

Definition strlen (s : string) : Z := Z.of_nat (String.length s).

(** [strncmp(s1, s2, n)]: the difference of the first bytes that differ
    among the first [n], the end of a string counting as the byte 0. *)
Fixpoint strncmp (s1 s2 : string) (n : nat) : Z :=
  match n with
  | O => 0
  | S n' =>
      match s1, s2 with
      | EmptyString, EmptyString => 0
      | EmptyString, String c2 _ => 0 - code c2
      | String c1 _, EmptyString => code c1
      | String c1 r1, String c2 r2 =>
          if code c1 =? code c2 then strncmp r1 r2 n' else code c1 - code c2
      end
  end.

(** [strcmp(s1, s2) == 0] *)
Definition strcmp_eq (s1 s2 : string) : bool := String.eqb s1 s2.

(** [strchr(s, c)] for a [c] other than NUL: the suffix of [s] that starts at
    the first [c], or [None] for the null pointer. *)
Fixpoint strchr (s : string) (c : ascii) : option string :=
  match s with
  | EmptyString => None
  | String d r => if Ascii.eqb d c then Some s else strchr r c
  end.

(** [p + 1] for a pointer [p] to a byte of a string that is not its NUL. *)
Definition next_char (p : string) : string :=
  match p with
  | EmptyString => EmptyString
  | String _ r => r
  end.

(** [*p], the NUL at the end of the string being the byte 0. *)
Definition deref (p : string) : Z :=
  match p with
  | EmptyString => 0
  | String c _ => code c
  end.

(** ** strtoul

    [message] stores the [unsigned long] that [strtoul] returns in an
    [unsigned]. The data models of 32 and of 64 bit Linux differ in the width
    of [unsigned long]; [unsigned] has 32 bits in both. *)

Inductive abi : Set := ILP32 | LP64.

Definition ulong_bits (a : abi) : Z :=
  match a with ILP32 => 32 | LP64 => 64 end.

Definition ULONG_MAX (a : abi) : Z := 2 ^ ulong_bits a - 1.

Definition UINT_BITS : Z := 32.

(** Conversion to [unsigned] and to [uint16_t]. *)
Definition to_unsigned (v : Z) : Z := v mod 2 ^ UINT_BITS.
Definition to_uint16 (v : Z) : Z := v mod 2 ^ 16.

(** [isspace] in the C locale: space, and the controls \t \n \v \f \r. *)
Definition isspace (c : ascii) : bool :=
  (code c =? 32) || ((9 <=? code c) && (code c <=? 13)).

(** The value of a byte as a digit, letters counting from 10 in either
    case. *)
Definition digit_value (c : ascii) : option Z :=
  let n := code c in
  if (48 <=? n) && (n <=? 57) then Some (n - 48)
  else if (97 <=? n) && (n <=? 122) then Some (n - 97 + 10)
  else if (65 <=? n) && (n <=? 90) then Some (n - 65 + 10)
  else None.

Definition is_digit (base : Z) (c : ascii) : bool :=
  match digit_value c with
  | Some d => d <? base
  | None => false
  end.

Fixpoint skip_space (s : string) : string :=
  match s with
  | String c r => if isspace c then skip_space r else s
  | EmptyString => s
  end.

(** The longest run of digits of [base] at the head of [s], accumulated
    onto [acc] without bound, and what follows the run. *)
Fixpoint scan_digits (base acc : Z) (s : string) : Z * string :=
  match s with
  | String c r =>
      match digit_value c with
      | Some d =>
          if d <? base then scan_digits base (acc * base + d) r else (acc, s)
      | None => (acc, s)
      end
  | EmptyString => (acc, s)
  end.

Definition is_x (c : ascii) : bool := (code c =? 120) || (code c =? 88).

(** With base 0 the subject sequence selects the base: [0x] or [0X] before a
    hexadecimal digit is base 16, another leading [0] is base 8, anything
    else base 10. The result is the base and the place the digits start. *)
Definition select_base (s : string) : Z * string :=
  match s with
  | String c0 (String c1 (String c2 r)) =>
      if (code c0 =? 48) && is_x c1 && is_digit 16 c2
      then (16, String c2 r)
      else if code c0 =? 48 then (8, s) else (10, s)
  | String c0 _ => if code c0 =? 48 then (8, s) else (10, s)
  | EmptyString => (10, s)
  end.

(** [strtoul(nptr, &end, 0)] as ISO C (7.22.1.4) defines it, without the
    binary prefix that C23 adds: the value returned and [end]. White space
    is skipped, then an optional sign; when no digit follows, no conversion
    is performed, the value is 0 and [end] is [nptr]. A value above
    [ULONG_MAX] is returned as [ULONG_MAX]; otherwise a minus sign negates
    the value in the type [unsigned long]. The digits only add to the value,
    so testing the bound once after the run is the same as testing it at
    every digit. *)
Definition strtoul (a : abi) (nptr : string) : Z * string :=
  let s := skip_space nptr in
  let '(negative, s) :=
    match s with
    | String c r =>
        if code c =? 45 then (true, r)
        else if code c =? 43 then (false, r)
        else (false, s)
    | EmptyString => (false, s)
    end in
  let '(base, digits) := select_base s in
  match digits with
  | String c _ =>
      if is_digit base c then
        let '(v, rest) := scan_digits base 0 digits in
        if ULONG_MAX a <? v then (ULONG_MAX a, rest)
        else if negative then ((2 ^ ulong_bits a - v) mod 2 ^ ulong_bits a, rest)
        else (v, rest)
      else (0, nptr)
  | EmptyString => (0, nptr)
  end.

(** ** Program state and observable behaviour *)

(** [enum mqtt_notify_type] of mqtt.h, by the enumerators mqtt.c uses. *)
Inductive mqtt_notify_type : Set :=
| mqtt_notify_epoch
| mqtt_notify_mined_state
| mqtt_notify_shutdown.

Definition notify_type_eqb (x y : mqtt_notify_type) : bool :=
  match x, y with
  | mqtt_notify_epoch, mqtt_notify_epoch
  | mqtt_notify_mined_state, mqtt_notify_mined_state
  | mqtt_notify_shutdown, mqtt_notify_shutdown => true
  | _, _ => false
  end.

(** [struct subscription]; the function pointer and the user pointer are
    opaque to mqtt.c and modelled by their addresses. *)
Record subscription : Set := mkSub {
  sub_type : mqtt_notify_type;
  sub_fn : Z;
  sub_user : Z
}.

(** The variables of mqtt.c: the five exported globals ([bool] being the
    [_Bool] of stdbool.h), the registry ([sub] with its [subs] entries, kept
    as a list) and the static [last] of [mqtt_status]. *)
Record state : Set := mkState {
  shutdown_pending : bool;
  hold : bool;
  curr_algo : Z;
  curr_epoch : Z;
  curr_block : Z;
  sub : list subscription;
  last : Z
}.

Definition initial_state : state :=
  {| shutdown_pending := false; hold := false; curr_algo := -1;
     curr_epoch := 0; curr_block := 0; sub := []; last := 0 |}.

Definition set_shutdown_pending (v : bool) (s : state) : state :=
  {| shutdown_pending := v; hold := hold s; curr_algo := curr_algo s;
     curr_epoch := curr_epoch s; curr_block := curr_block s; sub := sub s;
     last := last s |}.

Definition set_hold (v : bool) (s : state) : state :=
  {| shutdown_pending := shutdown_pending s; hold := v;
     curr_algo := curr_algo s; curr_epoch := curr_epoch s;
     curr_block := curr_block s; sub := sub s; last := last s |}.

Definition set_curr_algo (v : Z) (s : state) : state :=
  {| shutdown_pending := shutdown_pending s; hold := hold s; curr_algo := v;
     curr_epoch := curr_epoch s; curr_block := curr_block s; sub := sub s;
     last := last s |}.

Definition set_curr_epoch (v : Z) (s : state) : state :=
  {| shutdown_pending := shutdown_pending s; hold := hold s;
     curr_algo := curr_algo s; curr_epoch := v; curr_block := curr_block s;
     sub := sub s; last := last s |}.

Definition set_sub (v : list subscription) (s : state) : state :=
  {| shutdown_pending := shutdown_pending s; hold := hold s;
     curr_algo := curr_algo s; curr_epoch := curr_epoch s;
     curr_block := curr_block s; sub := v; last := last s |}.

Definition set_last (v : Z) (s : state) : state :=
  {| shutdown_pending := shutdown_pending s; hold := hold s;
     curr_algo := curr_algo s; curr_epoch := curr_epoch s;
     curr_block := curr_block s; sub := sub s; last := v |}.

(** The lines mqtt.c writes to stderr, by their format and arguments. *)
Inductive diagnostic : Set :=
| unrecognized_topic (topic : string)
| bad_number (buf : string)
| algorithm_name_missing
| unknown_algorithm (name : string)
| publish_failed (topic : string) (res : Z).

(** What mqtt.c does to the rest of the program and to the outside. *)
Inductive action : Set :=
| Call (fn user : Z)
| Publish (topic payload : string) (payloadlen qos : Z) (retain : bool)
| Stderr (d : diagnostic)
| Debug (level : Z) (begin_holding : bool)
| Abort.

(** An action together with the variables as they are when it is done:
    what a callback, or the transport, finds when it is called. *)
Record event : Set := mkEvent {
  seen : state;
  act : action
}.

(** Statements: from the variables before to the variables after and the
    events in between. *)
Definition M (A : Type) : Type := state -> A * state * list event.

Definition ret {A : Type} (x : A) : M A := fun s => (x, s, []).

Definition bind {A B : Type} (c : M A) (k : A -> M B) : M B :=
  fun s =>
    let '(x, s1, t1) := c s in
    let '(y, s2, t2) := k x s1 in
    (y, s2, t1 ++ t2).

Definition get : M state := fun s => (s, s, []).

Definition modify (f : state -> state) : M unit := fun s => (tt, f s, []).

Definition emit (x : action) : M unit :=
  fun s => (tt, s, [ {| seen := s; act := x |} ]).

Declare Scope stmt_scope.
Delimit Scope stmt_scope with stmt.
Notation "x <- c ;; k" := (bind c (fun x => k))
  (at level 61, c at next level, right associativity) : stmt_scope.
Notation "c ;; k" := (bind c (fun _ => k))
  (at level 61, right associativity) : stmt_scope.
Local Open Scope stmt_scope.

Definition exec {A : Type} (c : M A) (s : state) : state := snd (fst (c s)).
Definition trace {A : Type} (c : M A) (s : state) : list event := snd (c s).

(** The callbacks invoked in a trace, in order, each with its argument. *)
Fixpoint calls (t : list event) : list (Z * Z) :=
  match t with
  | [] => []
  | e :: t' =>
      match act e with
      | Call fn user => (fn, user) :: calls t'
      | _ => calls t'
      end
  end.

(** The messages handed to the transport in a trace. *)
Fixpoint published (t : list event) : list string :=
  match t with
  | [] => []
  | e :: t' =>
      match act e with
      | Publish _ payload _ _ _ => payload :: published t'
      | _ => published t'
      end
  end.

(** ** mqtt.c *)

Definition HOLD_STATE : string := "epoch_upload ".
Definition MQTT_TOPIC_EPOCH : string := "/mine/epoch".
Definition MQTT_TOPIC_CACHE : string := "/mine/dag-cache".
Definition MQTT_TOPIC_SHUTDOWN : string := "/sys/shutdown".
Definition MQTT_TOPIC_MINED_STATE : string := "/mine/mined-state".

Definition qos_be : Z := 0.
Definition qos_ack : Z := 1.
Definition qos_once : Z := 2.

(** mosquitto.h *)
Definition MOSQ_ERR_SUCCESS : Z := 0.

(** *** Notifications *)

(** The loop of [notify] over [sub .. sub + subs]. *)
Fixpoint notify_loop (type : mqtt_notify_type) (l : list subscription)
  : M unit :=
  match l with
  | [] => ret tt
  | s :: l' =>
      (if notify_type_eqb (sub_type s) type
       then emit (Call (sub_fn s) (sub_user s))
       else ret tt) ;;
      notify_loop type l'
  end.

Definition notify (type : mqtt_notify_type) : M unit :=
  st <- get ;;
  notify_loop type (sub st).

(** [realloc_type_n] of linzhi/alloc.h does not return on failure, so the
    array always grows by the new entry. *)
Definition mqtt_subscribe (type : mqtt_notify_type) (fn user : Z) : M unit :=
  modify (fun st =>
    set_sub (sub st ++ [ {| sub_type := type; sub_fn := fn;
                            sub_user := user |} ]) st).

(** *** MQTT transmission *)

(** [t] is the time that [time] stores and [res] the value that
    [mosquitto_publish] returns when it is called. *)
Definition mqtt_status (t res : Z) (s : string) (flush : bool) : M unit :=
  st <- get ;;
  if (t =? last st) && negb flush then ret tt
  else
    modify (set_last t) ;;
    emit (Publish MQTT_TOPIC_CACHE s (strlen s) qos_ack true) ;;
    if negb (res =? MOSQ_ERR_SUCCESS)
    then emit (Stderr (publish_failed MQTT_TOPIC_CACHE res))
    else ret tt.


(** ** Derived notions used in the statements *)

(** The registrations of one type, in the order of the registry. *)
Definition subscribers (type : mqtt_notify_type) (st : state)
  : list subscription :=
  filter (fun s => notify_type_eqb (sub_type s) type) (sub st).

(** The calls [notify] makes for them when the variables are [st]. *)
Definition notified (type : mqtt_notify_type) (st : state) : list event :=
  map (fun s => {| seen := st; act := Call (sub_fn s) (sub_user s) |})
      (subscribers type st).

(** A sequence of [mqtt_subscribe] calls, one per entry. *)
Fixpoint subscribe_all (regs : list subscription) : M unit :=
  match regs with
  | [] => ret tt
  | r :: regs' =>
      mqtt_subscribe (sub_type r) (sub_fn r) (sub_user r) ;;
      subscribe_all regs'
  end.

(** The state and events after lines 131 to 135 of [process_epoch] for the
    code [algo] and the number [n]. *)
Definition epoch_result (algo n : Z) (st : state)
  : unit * state * list event :=
  if (algo =? curr_algo st) && (n =? curr_epoch st) then (tt, st, [])
  else
    let st' := set_curr_epoch (to_uint16 n) (set_curr_algo algo st) in
    (tt, st', notified mqtt_notify_epoch st').

(** A byte from 0 to 9, and strings of them. *)
Definition is_decimal (c : ascii) : bool := (48 <=? code c) && (code c <=? 57).

Fixpoint all_decimal (s : string) : bool :=
  match s with
  | EmptyString => true
  | String c r => is_decimal c && all_decimal r
  end.

(** The number that a string of decimal digits writes, after [acc]. *)
Fixpoint decimal_value (acc : Z) (s : string) : Z :=
  match s with
  | EmptyString => acc
  | String c r => decimal_value (acc * 10 + (code c - 48)) r
  end.

(** A decimal numeral: digits, the first of them not 0. *)
Definition numeral (s : string) : bool :=
  match s with
  | EmptyString => false
  | String c r => negb (code c =? 48) && all_decimal s
  end.

(** The string does not go on with a digit of [base]. *)
Definition stops (base : Z) (rest : string) : bool :=
  match rest with
  | EmptyString => true
  | String c _ => negb (is_digit base c)
  end.

(** No byte of the string is a decimal digit. *)
Fixpoint no_digits (s : string) : bool :=
  match s with
  | EmptyString => true
  | String c r => negb (is_decimal c) && no_digits r
  end.

(** No byte of the string is NUL. *)
Fixpoint no_nul (s : string) : bool :=
  match s with
  | EmptyString => true
  | String c r => negb (code c =? 0) && no_nul r
  end.

(** A sample of the lookup of linzhi/dagalgo.h, for concrete runs. *)
Definition sample_code (name : string) : Z :=
  if String.eqb name "ethash" then 0
  else if String.eqb name "etchash" then 1
  else if String.eqb name "ubqhash" then 2
  else -1.

(** The initial state after one registration of each type. *)
Definition sample_state : state :=
  exec (mqtt_subscribe mqtt_notify_epoch 100 7 ;;
        mqtt_subscribe mqtt_notify_mined_state 200 8 ;;
        mqtt_subscribe mqtt_notify_shutdown 300 9) initial_state.

(** A call of [mqtt_status] with what its environment answers. *)
Record status_call : Set := mkStatusCall {
  call_time : Z;
  call_res : Z;
  call_text : string;
  call_flush : bool
}.

Definition run_status (c : status_call) : M unit :=
  mqtt_status (call_time c) (call_res c) (call_text c) (call_flush c).

(** The seconds at which the calls of a sequence handed a message to the
    transport, one entry per message. *)
Fixpoint delivery_times (cs : list status_call) (st : state) : list Z :=
  match cs with
  | [] => []
  | c :: cs' =>
      match published (trace (run_status c) st) with
      | [] => delivery_times cs' (exec (run_status c) st)
      | _ :: _ => call_time c :: delivery_times cs' (exec (run_status c) st)
      end
  end.

(** The clock does not run backwards from one call to the next. *)
Fixpoint nondecreasing (prev : Z) (cs : list status_call) : bool :=
  match cs with
  | [] => true
  | c :: cs' => (prev <=? call_time c) && nondecreasing (call_time c) cs'
  end.

Definition clock_monotone (cs : list status_call) : bool :=
  match cs with
  | [] => true
  | c :: cs' => nondecreasing (call_time c) cs'
  end.

Definition unforced (cs : list status_call) : bool :=
  forallb (fun c => negb (call_flush c)) cs.

(** What the rest of the program can make mqtt.c do: deliver a message
    (through [mqtt_poll]), register a callback, publish the status. *)
Inductive operation : Set :=
| op_message (topic payload : string)
| op_subscribe (type : mqtt_notify_type) (fn user : Z)
| op_status (t res : Z) (s : string) (flush : bool).

(** The notification type that the topic selects in [message]. *)
Inductive selects : string -> mqtt_notify_type -> Prop :=
| selects_epoch : selects MQTT_TOPIC_EPOCH mqtt_notify_epoch
| selects_mined_state : selects MQTT_TOPIC_MINED_STATE mqtt_notify_mined_state
| selects_shutdown : selects MQTT_TOPIC_SHUTDOWN mqtt_notify_shutdown.

(** The registrations that a sequence of operations makes, in order. *)
Fixpoint registrations (os : list operation) : list subscription :=
  match os with
  | [] => []
  | op_subscribe type fn user :: os' =>
      {| sub_type := type; sub_fn := fn; sub_user := user |}
      :: registrations os'
  | _ :: os' => registrations os'
  end.

(** The byte NUL. *)
Definition NUL : ascii := ascii_of_nat 0.

(** *** MQTT setup: the library calls and the ways out

    The functions below the reception path touch no variable of mqtt.c;
    what they do is call libmosquitto, write to stderr, and return or
    [exit]. What the library returns is an argument of the model. *)

Definition POLL_WAIT_MS : Z := 200.
Definition MQTT_HOST : string := "localhost".
Definition MQTT_PORT : Z := 1883.
Definition MQTT_CLIENT : string := "dagd".

(** The lines the setup functions write to stderr. *)
Inductive setup_diagnostic : Set :=
| connect_failed (result : Z)
| subscribe_failed (res : Z)
| reconnecting (result : Z)
| reconnect_failed (res : Z)
| invalid_port (text : string)
| strndup_failed
| new_failed
| connect_error (res : Z)
| loop_failed (res : Z).

Inductive setup_action : Set :=
| mosquitto_lib_init
| mosquitto_new (clean_session : bool)
| mosquitto_connect (host : string) (port keepalive : Z)
| mosquitto_connect_callback_set
| mosquitto_disconnect_callback_set
| mosquitto_message_callback_set
| mosquitto_subscribe (topic : string) (qos : Z)
| mosquitto_reconnect
| mosquitto_loop (timeout max_packets : Z)
| mosquitto_socket
| setup_stderr (d : setup_diagnostic).

(** A function returns, or the process ends in [exit(status)]. *)
Inductive outcome (A : Type) : Type :=
| Returned (x : A)
| Exited (status : Z).
Arguments Returned {A} x.
Arguments Exited {A} status.

(** Statements of the setup functions: the actions done, then the outcome;
    nothing follows an [exit]. *)
Definition P (A : Type) : Type := list setup_action * outcome A.

Definition pret {A : Type} (x : A) : P A := ([], Returned x).

Definition pbind {A B : Type} (c : P A) (k : A -> P B) : P B :=
  match c with
  | (t1, Returned x) => let '(t2, o) := k x in (t1 ++ t2, o)
  | (t1, Exited status) => (t1, Exited status)
  end.

Definition do (x : setup_action) : P unit := ([x], Returned tt).

Definition exit {A : Type} (status : Z) : P A := ([], Exited status).

Declare Scope proc_scope.
Delimit Scope proc_scope with proc.
Notation "x <- c ;; k" := (pbind c (fun x => k))
  (at level 61, c at next level, right associativity) : proc_scope.
Notation "c ;; k" := (pbind c (fun _ => k))
  (at level 61, right associativity) : proc_scope.

(** Conversion of an [unsigned long] to [int], as gcc defines it. *)
Definition to_int (v : Z) : Z := (v + 2 ^ 31) mod 2 ^ 32 - 2 ^ 31.

(** [strndup(s, n)] when the allocation succeeds: the first [n] bytes. *)
Fixpoint strndup (s : string) (n : nat) {struct n} : string :=
  match n, s with
  | S n', String c r => String c (strndup r n')
  | _, _ => EmptyString
  end.

(** [connected]: [result] is the argument of the callback, the three [res]
    what [mosquitto_subscribe] returns for the three topics. *)
Definition connected (result res_epoch res_mined res_shutdown : Z) : P unit :=
  ((if negb (result =? 0)
    then do (setup_stderr (connect_failed result)) ;; exit 1
    else pret tt) ;;
   do (mosquitto_subscribe MQTT_TOPIC_EPOCH qos_ack) ;;
   (if res_epoch <? 0
    then do (setup_stderr (subscribe_failed res_epoch)) ;; exit 1
    else pret tt) ;;
   do (mosquitto_subscribe MQTT_TOPIC_MINED_STATE 0) ;;
   (if res_mined <? 0
    then do (setup_stderr (subscribe_failed res_mined)) ;; exit 1
    else pret tt) ;;
   do (mosquitto_subscribe MQTT_TOPIC_SHUTDOWN qos_ack) ;;
   (if res_shutdown <? 0
    then do (setup_stderr (subscribe_failed res_shutdown)) ;; exit 1
    else pret tt))%proc.

(** [disconnected]: [result] is the reason of the callback, [res] what
    [mosquitto_reconnect] returns. *)
Definition disconnected (result res : Z) : P unit :=
  (do (setup_stderr (reconnecting result)) ;;
   do mosquitto_reconnect ;;
   (if negb (res =? MOSQ_ERR_SUCCESS)
    then do (setup_stderr (reconnect_failed res))
    else pret tt))%proc.

(** [mqtt_fd] *)
Definition mqtt_fd (fd : Z) : P Z := (do mosquitto_socket ;; pret fd)%proc.

(** A callback that libmosquitto makes from [mosquitto_loop], with what the
    library returns to the callback's own calls. *)
Inductive callback : Set :=
| on_message (topic payload : string)
| on_connect (result res_epoch res_mined res_shutdown : Z)
| on_disconnect (result res : Z).

(** What a poll does: events of the reception path and actions of the
    setup functions, in order. *)
Inductive poll_event : Set :=
| reception (e : event)
| setup (x : setup_action).

(** The topics of the [mosquitto_subscribe] calls among some actions. *)
Fixpoint subscribed_topics (t : list setup_action) : list string :=
  match t with
  | [] => []
  | mosquitto_subscribe topic _ :: t' => topic :: subscribed_topics t'
  | _ :: t' => subscribed_topics t'
  end.

(** The message deliveries among the callbacks of a poll. *)
Fixpoint messages (cbs : list callback) : list operation :=
  match cbs with
  | [] => []
  | on_message topic payload :: cbs' => op_message topic payload :: messages cbs'
  | _ :: cbs' => messages cbs'
  end.

(** The events of the reception path among the events of a poll. *)
Fixpoint receptions (t : list poll_event) : list event :=
  match t with
  | [] => []
  | reception e :: t' => e :: receptions t'
  | setup _ :: t' => receptions t'
  end.

(** A connect callback that ends the process. *)
Definition connect_fails (cb : callback) : bool :=
  match cb with
  | on_connect result res_epoch res_mined res_shutdown =>
      negb ((result =? 0) && (0 <=? res_epoch) && (0 <=? res_mined)
            && (0 <=? res_shutdown))
  | _ => false
  end.

(** *** MQTT reception *)

Section Mqtt.

(** The data model in force. *)
Variable a : abi.

(** linzhi/dagalgo.h: the code of an algorithm name, negative when the name
    is unknown, and the code of ethash. *)
Variable dagalgo_code : string -> Z.
Variable da_ethash : Z.

Definition process_epoch (n : Z) (names : option string) : M unit :=
  let changed (algo : Z) : M unit :=
    st <- get ;;
    if (algo =? curr_algo st) && (n =? curr_epoch st) then ret tt
    else
      modify (set_curr_algo algo) ;;
      modify (set_curr_epoch (to_uint16 n)) ;;
      notify mqtt_notify_epoch in
  match names with
  | Some names =>
      match strchr names " "%char with
      | None => emit (Stderr algorithm_name_missing)
      | Some next =>
          let algo := dagalgo_code (next_char next) in
          if algo <? 0
          then emit (Stderr (unknown_algorithm (next_char next)))
          else changed algo
      end
  | None => changed da_ethash
  end.

(** The [switch (type)] that ends [message], for the number [n] and the
    [end] that [strtoul] left. *)
Definition message_number (type : mqtt_notify_type) (n : Z)
    (end_ : string) : M unit :=
  match type with
  | mqtt_notify_epoch =>
      if negb (deref end_ =? 0)
      then process_epoch n (Some (next_char end_))
      else process_epoch n None
  | mqtt_notify_shutdown =>
      modify (set_shutdown_pending (negb (n =? 0))) ;;
      notify mqtt_notify_shutdown
  | _ => emit Abort
  end.

(** The body of [message] once the topic has selected [type]. *)
Definition message_of_type (type : mqtt_notify_type) (payload : string)
  : M unit :=
  let buf := cstr payload in
  match type with
  | mqtt_notify_mined_state =>
      let next_hold :=
        strncmp HOLD_STATE buf (String.length HOLD_STATE) =? 0 in
      st <- get ;;
      (if negb (Bool.eqb (hold st) next_hold)
       then emit (Debug 2 next_hold)
       else ret tt) ;;
      modify (set_hold next_hold) ;;
      notify mqtt_notify_mined_state
  | _ =>
      let '(v, end_) := strtoul a buf in
      let n := to_unsigned v in
      if negb (deref end_ =? 0) && negb (deref end_ =? 32)
      then emit (Stderr (bad_number buf))
      else message_number type n end_
  end.

Definition message (topic payload : string) : M unit :=
  if strcmp_eq topic MQTT_TOPIC_EPOCH
  then message_of_type mqtt_notify_epoch payload
  else if strcmp_eq topic MQTT_TOPIC_MINED_STATE
  then message_of_type mqtt_notify_mined_state payload
  else if strcmp_eq topic MQTT_TOPIC_SHUTDOWN
  then message_of_type mqtt_notify_shutdown payload
  else emit (Stderr (unrecognized_topic topic)).

(** *** The operations of the module as one step function *)

Definition run_operation (o : operation) : M unit :=
  match o with
  | op_message topic payload => message topic payload
  | op_subscribe type fn user => mqtt_subscribe type fn user
  | op_status t res s flush => mqtt_status t res s flush
  end.

Fixpoint run_operations (os : list operation) : M unit :=
  match os with
  | [] => ret tt
  | o :: os' => run_operation o ;; run_operations os'
  end.

(** *** The checks of the epoch path as one function

    What [message] and [process_epoch] make of an epoch payload before
    they look at the variables: the diagnostic with which the message is
    dropped, or the epoch number and the algorithm code. It is related
    to [message] by [message_epoch_decoded] below. *)
Definition decode_epoch (payload : string) : diagnostic + Z * Z :=
  let buf := cstr payload in
  let '(v, end_) := strtoul a buf in
  if negb (deref end_ =? 0) && negb (deref end_ =? 32)
  then inl (bad_number buf)
  else if negb (deref end_ =? 0) then
    match strchr (next_char end_) " "%char with
    | None => inl algorithm_name_missing
    | Some next =>
        if dagalgo_code (next_char next) <? 0
        then inl (unknown_algorithm (next_char next))
        else inr (to_unsigned v, dagalgo_code (next_char next))
    end
  else inr (to_unsigned v, da_ethash).

(** *** MQTT setup, continued *)

(** [setup_mqtt]: [broker] is [None] for the null pointer; [strndup_ok] and
    [new_ok] tell whether [strndup] and [mosquitto_new] return a pointer,
    [connect_res] is what [mosquitto_connect] returns. [address] is the
    pair of [host] and [port]. *)
Definition setup_mqtt (broker : option string) (strndup_ok new_ok : bool)
    (connect_res : Z) : P unit :=
  (address <-
     match broker with
     | Some broker =>
         let colon := strchr broker ":"%char in
         port <-
           match colon with
           | Some colon =>
               let '(v, end_) := strtoul a (next_char colon) in
               if negb (deref end_ =? 0)
               then
                 do (setup_stderr (invalid_port (next_char colon))) ;; exit 1
               else pret (to_int v)
           | None => pret MQTT_PORT
           end ;;
         let host :=
           strndup broker
             (match colon with
              | Some colon => String.length broker - String.length colon
              | None => String.length broker
              end) in
         if strndup_ok then pret (Some host, port)
         else do (setup_stderr strndup_failed) ;; exit 1
     | None => pret (None, MQTT_PORT)
     end ;;
   do mosquitto_lib_init ;;
   do (mosquitto_new true) ;;
   (if new_ok then pret tt
    else do (setup_stderr new_failed) ;; exit 1) ;;
   do (mosquitto_connect
         (match fst address with Some host => host | None => MQTT_HOST end)
         (snd address) 3600) ;;
   (if connect_res <? 0
    then do (setup_stderr (connect_error connect_res)) ;; exit 1
    else pret tt) ;;
   do mosquitto_connect_callback_set ;;
   do mosquitto_disconnect_callback_set ;;
   do mosquitto_message_callback_set)%proc.

(** [mqtt_init] *)
Definition mqtt_init (broker : option string) (strndup_ok new_ok : bool)
    (connect_res : Z) : P unit :=
  setup_mqtt broker strndup_ok new_ok connect_res.

(** The callbacks of one [mosquitto_loop], in the order the library makes
    them: the events, the variables after, and whether one of them ended
    the process. *)
Fixpoint run_callbacks (cbs : list callback) (st : state)
  : list poll_event * state * outcome unit :=
  match cbs with
  | [] => ([], st, Returned tt)
  | on_message topic payload :: cbs' =>
      let '(_, st1, t1) := message topic payload st in
      let '(t2, st2, o) := run_callbacks cbs' st1 in
      (map reception t1 ++ t2, st2, o)
  | on_connect result res_epoch res_mined res_shutdown :: cbs' =>
      match connected result res_epoch res_mined res_shutdown with
      | (t1, Returned _) =>
          let '(t2, st2, o) := run_callbacks cbs' st in
          (map setup t1 ++ t2, st2, o)
      | (t1, Exited status) => (map setup t1, st, Exited status)
      end
  | on_disconnect result res :: cbs' =>
      match disconnected result res with
      | (t1, Returned _) =>
          let '(t2, st2, o) := run_callbacks cbs' st in
          (map setup t1 ++ t2, st2, o)
      | (t1, Exited status) => (map setup t1, st, Exited status)
      end
  end.

(** [mqtt_poll]: [cbs] are the callbacks that [mosquitto_loop] makes before
    it returns [res]. *)
Definition mqtt_poll (do_wait : bool) (cbs : list callback) (res : Z)
    (st : state) : list poll_event * state * outcome unit :=
  let call := setup (mosquitto_loop (if do_wait then POLL_WAIT_MS else 0) 1) in
  match run_callbacks cbs st with
  | (t, st', Returned _) =>
      if res <? 0
      then (call :: t ++ [setup (setup_stderr (loop_failed res))], st',
            Exited 1)
      else (call :: t, st', Returned tt)
  | (t, st', Exited status) => (call :: t, st', Exited status)
  end.


(** * Properties *)

(** ** Notifications *)

Lemma notify_loop_run (type : mqtt_notify_type) (l : list subscription)
    (st : state) :
  notify_loop type l st =
  (tt, st,
   map (fun s => {| seen := st; act := Call (sub_fn s) (sub_user s) |})
       (filter (fun s => notify_type_eqb (sub_type s) type) l)).
Proof.
  induction l as [|s l IH]; [reflexivity|].
  cbn [notify_loop filter]. unfold bind.
  destruct (notify_type_eqb (sub_type s) type); cbn; rewrite IH; reflexivity.
Qed.

Lemma notify_run (type : mqtt_notify_type) (st : state) :
  notify type st = (tt, st, notified type st).
Proof.
  unfold notify, bind, get. rewrite notify_loop_run. reflexivity.
Qed.

Lemma calls_app (t1 t2 : list event) :
  calls (t1 ++ t2) = calls t1 ++ calls t2.
Proof.
  induction t1 as [|e t1 IH]; [reflexivity|].
  cbn [calls app]. rewrite IH. destruct (act e); reflexivity.
Qed.

Lemma calls_notified (type : mqtt_notify_type) (st : state) :
  calls (notified type st) =
  map (fun s => (sub_fn s, sub_user s)) (subscribers type st).
Proof.
  unfold notified. induction (subscribers type st) as [|s l IH];
    [reflexivity|].
  cbn [map calls act]. now rewrite IH.
Qed.

Lemma subscribe_all_run (regs : list subscription) (st : state) :
  subscribe_all regs st = (tt, set_sub (sub st ++ regs) st, []).
Proof.
  revert st. induction regs as [|r regs IH]; intros st.
  - cbn. rewrite app_nil_r. now destruct st.
  - cbn [subscribe_all]. unfold bind, mqtt_subscribe, modify.
    rewrite IH. cbn. rewrite <- app_assoc. destruct r; reflexivity.
Qed.

(** C8. Registration appends to the registry and never merges or drops an
    entry: after any sequence of [mqtt_subscribe] calls the registry is the
    old one followed by the new registrations, duplicates included. [notify]
    then calls exactly the registrations of the requested type, in the order
    they were registered, each with the user pointer given at registration,
    and changes no variable. In particular two callbacks registered one after
    the other for the same type on an empty registry are both called, in that
    order. *)
Theorem registry_appends_and_dispatches_in_order :
  forall (st : state) (regs : list subscription) (type : mqtt_notify_type),
    let st' := exec (subscribe_all regs) st in
    sub st' = sub st ++ regs
    /\ List.length (sub st') = (List.length (sub st) + List.length regs)%nat
    /\ calls (trace (notify type) st') =
       map (fun s => (sub_fn s, sub_user s))
           (filter (fun s => notify_type_eqb (sub_type s) type)
                   (sub st ++ regs))
    /\ exec (notify type) st' = st'
    /\ (forall fn1 user1 fn2 user2,
          calls (trace (mqtt_subscribe type fn1 user1 ;;
                        mqtt_subscribe type fn2 user2 ;;
                        notify type) initial_state)
          = [(fn1, user1); (fn2, user2)]).
Proof.
  intros st regs type st'.
  assert (Hsub : sub st' = sub st ++ regs).
  { unfold st', exec. now rewrite subscribe_all_run. }
  repeat split.
  - exact Hsub.
  - rewrite Hsub. apply length_app.
  - unfold trace. rewrite notify_run. cbn [snd].
    rewrite calls_notified. unfold subscribers. now rewrite Hsub.
  - unfold exec. now rewrite notify_run.
  - intros fn1 user1 fn2 user2. unfold trace, bind, mqtt_subscribe, modify.
    rewrite notify_run. cbn.
    destruct type; reflexivity.
Qed.

(** ** MQTT transmission *)

Lemma mqtt_status_suppressed (st : state) (t res : Z) (s : string) :
  last st = t -> mqtt_status t res s false st = (tt, st, []).
Proof.
  intros H. unfold mqtt_status, bind, get. rewrite H, Z.eqb_refl.
  reflexivity.
Qed.

Lemma mqtt_status_passes (st : state) (t res : Z) (s : string)
    (flush : bool) :
  (t =? last st) && negb flush = false ->
  mqtt_status t res s flush st =
  (tt, set_last t st,
   {| seen := set_last t st;
      act := Publish MQTT_TOPIC_CACHE s (strlen s) qos_ack true |}
   :: (if res =? MOSQ_ERR_SUCCESS then []
       else [ {| seen := set_last t st;
                 act := Stderr (publish_failed MQTT_TOPIC_CACHE res) |} ])).
Proof.
  intros H. unfold mqtt_status, bind, get, modify, emit. rewrite H.
  destruct (res =? MOSQ_ERR_SUCCESS); reflexivity.
Qed.

Lemma published_passes (st : state) (t res : Z) (s : string) (flush : bool) :
  (t =? last st) && negb flush = false ->
  published (trace (mqtt_status t res s flush) st) = [s]
  /\ last (exec (mqtt_status t res s flush) st) = t.
Proof.
  intros H. unfold trace, exec. rewrite (mqtt_status_passes _ _ _ _ _ H).
  destruct (res =? MOSQ_ERR_SUCCESS); split; reflexivity.
Qed.

Lemma delivery_times_called (cs : list status_call) (st : state) (x : Z) :
  In x (delivery_times cs st) -> In x (map call_time cs).
Proof.
  revert st. induction cs as [|c cs IH]; intros st; [easy|].
  cbn [delivery_times map].
  destruct (published (trace (run_status c) st)); intros H.
  - right. eapply IH, H.
  - destruct H as [H|H]; [now left | right; eapply IH, H].
Qed.

Lemma nondecreasing_bound (prev : Z) (cs : list status_call) :
  nondecreasing prev cs = true ->
  forall x, In x (map call_time cs) -> prev <= x.
Proof.
  revert prev. induction cs as [|c cs IH]; intros prev H x Hx; [easy|].
  cbn in H. apply andb_prop in H as [H1 H2]. apply Z.leb_le in H1.
  destruct Hx as [<-|Hx]; [exact H1|].
  specialize (IH _ H2 _ Hx). lia.
Qed.

Lemma nondecreasing_weaken (p q : Z) (cs : list status_call) :
  p <= q -> nondecreasing q cs = true -> nondecreasing p cs = true.
Proof.
  destruct cs as [|c cs]; [easy|]. cbn. intros Hpq H.
  apply andb_prop in H as [H1 H2]. apply Z.leb_le in H1.
  rewrite H2, andb_true_r. apply Z.leb_le. lia.
Qed.

(** Unforced calls made while the clock does not run backwards deliver at
    most once per second, and not in the second of the last delivery. *)
Lemma delivery_times_NoDup (cs : list status_call) (st : state) :
  unforced cs = true ->
  nondecreasing (last st) cs = true ->
  NoDup (delivery_times cs st) /\ ~ In (last st) (delivery_times cs st).
Proof.
  revert st. induction cs as [|c cs IH]; intros st Hu Hm.
  - split; [constructor | easy].
  - cbn in Hu, Hm. apply andb_prop in Hu as [Hc Hu].
    apply andb_prop in Hm as [Hle Hm]. apply Z.leb_le in Hle.
    apply negb_true_iff in Hc.
    cbn [delivery_times]. unfold run_status. rewrite Hc.
    destruct (Z.eq_dec (call_time c) (last st)) as [E|E].
    + unfold trace, exec.
      rewrite (mqtt_status_suppressed st _ _ _ (eq_sym E)). cbn.
      apply IH; [exact Hu|]. now rewrite <- E.
    + assert (G : (call_time c =? last st) && negb false = false).
      { apply andb_false_iff. left. now apply Z.eqb_neq. }
      destruct (published_passes st _ (call_res c) (call_text c) _ G)
        as [-> Hl].
      set (st' := exec (mqtt_status (call_time c) (call_res c)
                                    (call_text c) false) st) in *.
      assert (Hm' : nondecreasing (last st') cs = true) by now rewrite Hl.
      destruct (IH st' Hu Hm') as [Hnd Hni]. rewrite Hl in Hni.
      split.
      * constructor; assumption.
      * intros [H|H]; [now apply E|].
        apply delivery_times_called in H.
        pose proof (nondecreasing_bound _ _ Hm _ H). lia.
Qed.

(** C7. Two calls of [mqtt_status] in the same second [t] without [flush],
    the first of them in a second other than that of the last delivery, hand
    exactly one message to the transport, the first; the second call returns
    without doing anything. Two calls in the same second with [flush] hand
    over both messages. Hence, for calls without [flush] made while the
    clock does not run backwards, no second sees two deliveries. *)
Theorem status_rate_limited_to_one_per_second :
  forall (st : state) (t res1 res2 : Z) (s1 s2 : string),
    (last st <> t ->
     published (trace (mqtt_status t res1 s1 false ;;
                       mqtt_status t res2 s2 false) st) = [s1])
    /\ (forall flush1,
          mqtt_status t res2 s2 false
            (exec (mqtt_status t res1 s1 flush1) st)
          = (tt, exec (mqtt_status t res1 s1 flush1) st, []))
    /\ published (trace (mqtt_status t res1 s1 true ;;
                         mqtt_status t res2 s2 true) st) = [s1; s2]
    /\ (forall cs : list status_call,
          unforced cs = true -> clock_monotone cs = true ->
          NoDup (delivery_times cs st)).
Proof.
  intros st t res1 res2 s1 s2.
  assert (Hsecond : forall flush1,
            mqtt_status t res2 s2 false
              (exec (mqtt_status t res1 s1 flush1) st)
            = (tt, exec (mqtt_status t res1 s1 flush1) st, [])).
  { intros flush1. apply mqtt_status_suppressed.
    destruct ((t =? last st) && negb flush1) eqn:G.
    - apply andb_prop in G as [G _]. apply Z.eqb_eq in G.
      unfold exec, mqtt_status, bind, get. rewrite G, Z.eqb_refl.
      destruct flush1; [|reflexivity].
      cbn. destruct (res1 =? MOSQ_ERR_SUCCESS); reflexivity.
    - now apply published_passes. }
  split; [|split; [exact Hsecond|split]].
  - intros Hnew.
    assert (G : (t =? last st) && negb false = false).
    { apply andb_false_iff. left. apply Z.eqb_neq. congruence. }
    pose proof (Hsecond false) as H2. unfold exec in H2.
    unfold trace, bind.
    rewrite (mqtt_status_passes _ _ res1 s1 _ G) in *. cbn [fst snd] in H2.
    rewrite H2. rewrite app_nil_r.
    destruct (res1 =? MOSQ_ERR_SUCCESS); reflexivity.
  - unfold trace, bind.
    rewrite (mqtt_status_passes st t res1 s1 true)
      by (cbn; apply andb_false_r).
    rewrite (mqtt_status_passes _ t res2 s2 true)
      by (cbn; apply andb_false_r).
    destruct (res1 =? MOSQ_ERR_SUCCESS), (res2 =? MOSQ_ERR_SUCCESS);
      reflexivity.
  - intros [|c cs] Hu Hm; [constructor|].
    cbn in Hu, Hm. apply andb_prop in Hu as [Hc Hu].
    apply negb_true_iff in Hc.
    cbn [delivery_times]. unfold run_status. rewrite Hc.
    destruct (Z.eq_dec (call_time c) (last st)) as [E|E].
    + unfold trace, exec.
      rewrite (mqtt_status_suppressed st _ _ _ (eq_sym E)). cbn.
      apply delivery_times_NoDup; [exact Hu | now rewrite <- E].
    + assert (G : (call_time c =? last st) && negb false = false).
      { apply andb_false_iff. left. now apply Z.eqb_neq. }
      destruct (published_passes st _ (call_res c) (call_text c) _ G)
        as [-> Hl].
      set (st' := exec (mqtt_status (call_time c) (call_res c)
                                    (call_text c) false) st) in *.
      assert (Hm' : nondecreasing (last st') cs = true) by now rewrite Hl.
      destruct (delivery_times_NoDup cs st' Hu Hm') as [Hnd Hni].
      rewrite Hl in Hni. constructor; assumption.
Qed.

(** C10. A call of [mqtt_status] that passes the gate (another second than
    the last delivery, or [flush]) sets [last] to the current second before
    it hands the message to the transport, which therefore finds [last]
    already updated, and whatever [mosquitto_publish] returns. After such a
    call, failed or not, a call without [flush] in the same second does
    nothing. *)
Theorem status_timestamp_set_before_publish :
  forall (st : state) (t res : Z) (s : string) (flush : bool),
    t <> last st \/ flush = true ->
    let st' := exec (mqtt_status t res s flush) st in
    last st' = t
    /\ trace (mqtt_status t res s flush) st =
       {| seen := set_last t st;
          act := Publish MQTT_TOPIC_CACHE s (strlen s) qos_ack true |}
       :: (if res =? MOSQ_ERR_SUCCESS then []
           else [ {| seen := set_last t st;
                     act := Stderr (publish_failed MQTT_TOPIC_CACHE res) |} ])
    /\ (forall (res' : Z) (s' : string),
          mqtt_status t res' s' false st' = (tt, st', [])).
Proof.
  intros st t res s flush Hgate st'.
  assert (G : (t =? last st) && negb flush = false).
  { apply andb_false_iff. destruct Hgate as [H| ->].
    - left. now apply Z.eqb_neq.
    - now right. }
  assert (Hl : last st' = t) by now apply published_passes.
  repeat split.
  - exact Hl.
  - unfold trace. now rewrite (mqtt_status_passes _ _ _ _ _ G).
  - intros res' s'. now apply mqtt_status_suppressed.
Qed.

(** ** MQTT reception *)

Lemma message_on_epoch_topic (payload : string) :
  message MQTT_TOPIC_EPOCH payload = message_of_type mqtt_notify_epoch payload.
Proof. reflexivity. Qed.

Lemma message_on_mined_state_topic (payload : string) :
  message MQTT_TOPIC_MINED_STATE payload =
  message_of_type mqtt_notify_mined_state payload.
Proof. reflexivity. Qed.

Lemma message_on_shutdown_topic (payload : string) :
  message MQTT_TOPIC_SHUTDOWN payload =
  message_of_type mqtt_notify_shutdown payload.
Proof. reflexivity. Qed.

Lemma epoch_changed_run (algo n : Z) (st : state) :
  (st0 <- get ;;
   if (algo =? curr_algo st0) && (n =? curr_epoch st0) then ret tt
   else
     modify (set_curr_algo algo) ;;
     modify (set_curr_epoch (to_uint16 n)) ;;
     notify mqtt_notify_epoch) st
  = epoch_result algo n st.
Proof.
  unfold epoch_result, bind, get.
  destruct ((algo =? curr_algo st) && (n =? curr_epoch st));
    [reflexivity|].
  unfold modify. now rewrite notify_run.
Qed.

Lemma process_epoch_without_names (n : Z) (st : state) :
  process_epoch n None st = epoch_result da_ethash n st.
Proof. unfold process_epoch. apply epoch_changed_run. Qed.

Lemma process_epoch_with_names (n : Z) (names : string) (st : state) :
  process_epoch n (Some names) st =
  match strchr names " "%char with
  | None => (tt, st, [ {| seen := st; act := Stderr algorithm_name_missing |} ])
  | Some next =>
      if dagalgo_code (next_char next) <? 0
      then (tt, st, [ {| seen := st;
                         act := Stderr (unknown_algorithm (next_char next)) |} ])
      else epoch_result (dagalgo_code (next_char next)) n st
  end.
Proof.
  unfold process_epoch.
  destruct (strchr names " "%char) as [next|]; [|reflexivity].
  destruct (dagalgo_code (next_char next) <? 0); [reflexivity|].
  apply epoch_changed_run.
Qed.

(** [message] on the epoch topic is [decode_epoch] followed by the
    comparison with the variables. *)
Lemma message_epoch_decoded (payload : string) (st : state) :
  message MQTT_TOPIC_EPOCH payload st =
  match decode_epoch payload with
  | inl d => (tt, st, [ {| seen := st; act := Stderr d |} ])
  | inr (n, algo) => epoch_result algo n st
  end.
Proof.
  rewrite message_on_epoch_topic.
  unfold message_of_type, decode_epoch.
  destruct (strtoul a (cstr payload)) as [v end_].
  destruct (negb (deref end_ =? 0) && negb (deref end_ =? 32));
    [reflexivity|].
  unfold message_number.
  destruct (negb (deref end_ =? 0)).
  - rewrite process_epoch_with_names.
    destruct (strchr (next_char end_) " "%char) as [next|]; [|reflexivity].
    destruct (dagalgo_code (next_char next) <? 0); reflexivity.
  - apply process_epoch_without_names.
Qed.

Lemma message_shutdown_run (payload : string) (st : state) (v : Z)
    (end_ : string) :
  strtoul a (cstr payload) = (v, end_) ->
  deref end_ = 0 \/ deref end_ = 32 ->
  let st' := set_shutdown_pending (negb (to_unsigned v =? 0)) st in
  message MQTT_TOPIC_SHUTDOWN payload st =
  (tt, st', notified mqtt_notify_shutdown st').
Proof.
  intros Hp He st'. rewrite message_on_shutdown_topic.
  unfold message_of_type. rewrite Hp.
  replace (negb (deref end_ =? 0) && negb (deref end_ =? 32)) with false
    by (destruct He as [-> | ->]; reflexivity).
  unfold message_number, bind, modify. now rewrite notify_run.
Qed.

Lemma epoch_result_fields (algo n : Z) (st : state) :
  0 <= n < 65536 ->
  let st' := snd (fst (epoch_result algo n st)) in
  curr_algo st' = algo /\ curr_epoch st' = n.
Proof.
  intros Hn. unfold epoch_result.
  destruct ((algo =? curr_algo st) && (n =? curr_epoch st)) eqn:E.
  - apply andb_prop in E as [E1 E2].
    apply Z.eqb_eq in E1, E2. cbn. now split.
  - cbn. split; [reflexivity|].
    unfold to_uint16. apply Z.mod_small. lia.
Qed.

Lemma strchr_after_word (word rest : string) :
  strchr word " "%char = None ->
  strchr (word ++ String " "%char rest)%string " "%char
  = Some (String " "%char rest).
Proof.
  induction word as [|c word IH]; intros H; [reflexivity|].
  cbn in H |- *. destruct (Ascii.eqb c " "%char); [discriminate|].
  now apply IH.
Qed.

Lemma to_unsigned_nonneg (v : Z) : 0 <= to_unsigned v.
Proof. unfold to_unsigned. apply Z.mod_pos_bound. reflexivity. Qed.

Lemma epoch_result_algo (algo n : Z) (st : state) :
  curr_algo (snd (fst (epoch_result algo n st))) = algo.
Proof.
  unfold epoch_result.
  destruct ((algo =? curr_algo st) && (n =? curr_epoch st)) eqn:E;
    [|reflexivity].
  apply andb_prop in E as [E _]. apply Z.eqb_eq in E. now cbn.
Qed.

Lemma epoch_result_epoch (algo n : Z) (st : state) :
  0 <= n < 65536 -> curr_epoch (snd (fst (epoch_result algo n st))) = n.
Proof. intros H. now apply epoch_result_fields. Qed.

Lemma message_bad_number_run (st : state) (topic payload : string) (v : Z)
    (end_ : string) :
  topic = MQTT_TOPIC_EPOCH \/ topic = MQTT_TOPIC_SHUTDOWN ->
  strtoul a (cstr payload) = (v, end_) ->
  deref end_ <> 0 -> deref end_ <> 32 ->
  message topic payload st =
  (tt, st, [ {| seen := st; act := Stderr (bad_number (cstr payload)) |} ]).
Proof.
  intros Htopic Hp H0 H32. apply Z.eqb_neq in H0, H32.
  destruct Htopic as [-> | ->].
  - rewrite message_on_epoch_topic. unfold message_of_type.
    now rewrite Hp, H0, H32.
  - rewrite message_on_shutdown_topic. unfold message_of_type.
    now rewrite Hp, H0, H32.
Qed.

(** C5. On the epoch topic and on the shutdown topic, when the byte at
    which [strtoul] stops is neither the end of the payload nor a space, the
    message is dropped: [message] reports a bad number on stderr and does
    nothing else, so no variable changes and no callback is called. *)
Theorem number_with_trailing_garbage_dropped :
  forall (st : state) (topic payload : string) (v : Z) (end_ : string),
    topic = MQTT_TOPIC_EPOCH \/ topic = MQTT_TOPIC_SHUTDOWN ->
    strtoul a (cstr payload) = (v, end_) ->
    deref end_ <> 0 -> deref end_ <> 32 ->
    message topic payload st =
      (tt, st, [ {| seen := st; act := Stderr (bad_number (cstr payload)) |} ])
    /\ exec (message topic payload) st = st
    /\ calls (trace (message topic payload) st) = []
    /\ published (trace (message topic payload) st) = [].
Proof.
  intros st topic payload v end_ Htopic Hp H0 H32.
  unfold exec, trace.
  rewrite (message_bad_number_run st topic payload v end_ Htopic Hp H0 H32).
  repeat split.
Qed.

(** X20. Every payload of the shutdown topic that parses (the byte after
    the number is the end of the payload or a space) sets [shutdown_pending]
    to whether the value of the [unsigned n] of [message], which is what
    [strtoul] returns reduced modulo 2^32, is not zero, and then calls every
    callback registered for shutdown, whatever the flag was before. The
    payloads 0, 1, 1 in a row notify three times, the callbacks finding the
    flag false, true and true. *)
Theorem shutdown_always_notifies :
  forall (st : state) (payload : string) (v : Z) (end_ : string),
    strtoul a (cstr payload) = (v, end_) ->
    deref end_ = 0 \/ deref end_ = 32 ->
    let st' := set_shutdown_pending (negb (to_unsigned v =? 0)) st in
    message MQTT_TOPIC_SHUTDOWN payload st =
      (tt, st', notified mqtt_notify_shutdown st')
    /\ calls (trace (message MQTT_TOPIC_SHUTDOWN payload) st) =
       map (fun s => (sub_fn s, sub_user s))
           (subscribers mqtt_notify_shutdown st)
    /\ trace (message MQTT_TOPIC_SHUTDOWN "0" ;;
              message MQTT_TOPIC_SHUTDOWN "1" ;;
              message MQTT_TOPIC_SHUTDOWN "1") st =
       notified mqtt_notify_shutdown (set_shutdown_pending false st)
       ++ notified mqtt_notify_shutdown (set_shutdown_pending true st)
       ++ notified mqtt_notify_shutdown (set_shutdown_pending true st)
    /\ map (fun e => (act e, shutdown_pending (seen e)))
           (trace (message MQTT_TOPIC_SHUTDOWN "0" ;;
                   message MQTT_TOPIC_SHUTDOWN "1" ;;
                   message MQTT_TOPIC_SHUTDOWN "1") sample_state) =
       [(Call 300 9, false); (Call 300 9, true); (Call 300 9, true)].
Proof.
  intros st payload v end_ Hp He st'.
  pose proof (message_shutdown_run payload st v end_ Hp He) as E.
  cbv zeta in E. fold st' in E.
  assert (P0 : strtoul a (cstr "0") = (0, EmptyString))
    by (destruct a; reflexivity).
  assert (P1 : strtoul a (cstr "1") = (1, EmptyString))
    by (destruct a; reflexivity).
  assert (Hseq : forall s0,
    trace (message MQTT_TOPIC_SHUTDOWN "0" ;;
           message MQTT_TOPIC_SHUTDOWN "1" ;;
           message MQTT_TOPIC_SHUTDOWN "1") s0 =
    notified mqtt_notify_shutdown (set_shutdown_pending false s0)
    ++ notified mqtt_notify_shutdown (set_shutdown_pending true s0)
    ++ notified mqtt_notify_shutdown (set_shutdown_pending true s0)).
  { intros s0. unfold trace, bind.
    rewrite (message_shutdown_run "0" s0 0 EmptyString P0 (or_introl eq_refl)).
    rewrite (message_shutdown_run "1" _ 1 EmptyString P1 (or_introl eq_refl)).
    rewrite (message_shutdown_run "1" _ 1 EmptyString P1 (or_introl eq_refl)).
    reflexivity. }
  split; [exact E|split; [|split]].
  - unfold trace. rewrite E. cbn [snd]. rewrite calls_notified. reflexivity.
  - apply Hseq.
  - rewrite Hseq. reflexivity.
Qed.

(** *** Decimal numerals *)

Lemma is_decimal_digit (c : ascii) :
  is_decimal c = true -> digit_value c = Some (code c - 48).
Proof. unfold is_decimal, digit_value. cbv zeta. now intros ->. Qed.

Lemma scan_digits_decimal (ds rest : string) (acc : Z) :
  all_decimal ds = true -> stops 10 rest = true ->
  scan_digits 10 acc (ds ++ rest)%string = (decimal_value acc ds, rest).
Proof.
  revert acc. induction ds as [|c ds IH]; intros acc Hd Hr.
  - cbn [append decimal_value]. destruct rest as [|c r]; [reflexivity|].
    cbn in Hr. apply negb_true_iff in Hr. unfold is_digit in Hr.
    cbn [scan_digits]. destruct (digit_value c) as [d|]; [|reflexivity].
    now rewrite Hr.
  - cbn in Hd. apply andb_prop in Hd as [Hc Hd].
    cbn [append scan_digits decimal_value].
    rewrite (is_decimal_digit c Hc).
    unfold is_decimal in Hc. apply andb_prop in Hc as [_ Hc].
    apply Z.leb_le in Hc.
    replace (code c - 48 <? 10) with true by (symmetry; apply Z.ltb_lt; lia).
    now apply IH.
Qed.

Lemma decimal_value_nonneg (ds : string) (acc : Z) :
  all_decimal ds = true -> 0 <= acc -> acc <= decimal_value acc ds.
Proof.
  revert acc. induction ds as [|c ds IH]; intros acc Hd Ha; cbn; [lia|].
  cbn in Hd. apply andb_prop in Hd as [Hc Hd].
  unfold is_decimal in Hc. apply andb_prop in Hc as [Hc _].
  apply Z.leb_le in Hc.
  specialize (IH (acc * 10 + (code c - 48)) Hd). lia.
Qed.

(** [strtoul] reads a decimal numeral that fits [unsigned long] as the
    number it writes and stops right after it. *)
Lemma strtoul_numeral (ds rest : string) :
  numeral ds = true -> stops 10 rest = true ->
  decimal_value 0 ds <= ULONG_MAX a ->
  strtoul a (ds ++ rest)%string = (decimal_value 0 ds, rest).
Proof.
  intros Hn Hr Hmax. destruct ds as [|c ds]; [discriminate|].
  cbn [numeral] in Hn. apply andb_prop in Hn as [H48 Hd].
  apply negb_true_iff in H48.
  pose proof Hd as Hall. cbn [all_decimal] in Hd.
  apply andb_prop in Hd as [Hc _].
  pose proof (is_decimal_digit c Hc) as Hv.
  unfold is_decimal in Hc. apply andb_prop in Hc as [Hlo Hhi].
  apply Z.leb_le in Hlo, Hhi.
  assert (Hsp : isspace c = false).
  { unfold isspace. apply orb_false_iff. split.
    - apply Z.eqb_neq. lia.
    - apply andb_false_iff. right. apply Z.leb_gt. lia. }
  assert (Hbase : select_base (String c ds ++ rest)%string
                  = (10, (String c ds ++ rest)%string)).
  { cbn [append]. unfold select_base. rewrite H48. cbn [andb].
    destruct (ds ++ rest)%string as [|c1 [|c2 r]]; reflexivity. }
  unfold strtoul. cbn [append skip_space]. rewrite Hsp.
  replace (code c =? 45) with false by (symmetry; apply Z.eqb_neq; lia).
  replace (code c =? 43) with false by (symmetry; apply Z.eqb_neq; lia).
  cbn [append] in Hbase. rewrite Hbase.
  unfold is_digit at 1. rewrite Hv.
  replace (code c - 48 <? 10) with true by (symmetry; apply Z.ltb_lt; lia).
  change (String c (ds ++ rest)%string) with (String c ds ++ rest)%string.
  rewrite (scan_digits_decimal _ _ 0 Hall Hr).
  now replace (ULONG_MAX a <? decimal_value 0 (String c ds)) with false
    by (symmetry; apply Z.ltb_ge; lia).
Qed.

Lemma cstr_no_nul (p : string) : no_nul p = true -> cstr p = p.
Proof.
  induction p as [|c p IH]; [reflexivity|]. cbn. intros H.
  apply andb_prop in H as [Hc Hp]. apply negb_true_iff in Hc.
  now rewrite Hc, IH.
Qed.

Lemma no_nul_app (s t : string) :
  no_nul s = true -> no_nul t = true -> no_nul (s ++ t)%string = true.
Proof.
  induction s as [|c s IH]; [easy|]. cbn. intros H Ht.
  apply andb_prop in H as [Hc Hs]. now rewrite Hc, IH.
Qed.

Lemma all_decimal_no_nul (s : string) :
  all_decimal s = true -> no_nul s = true.
Proof.
  induction s as [|c s IH]; [reflexivity|]. cbn. intros H.
  apply andb_prop in H as [Hc Hs]. rewrite (IH Hs), andb_true_r.
  unfold is_decimal in Hc. apply andb_prop in Hc as [Hc _].
  apply Z.leb_le in Hc. apply negb_true_iff, Z.eqb_neq. lia.
Qed.

Lemma ULONG_MAX_at_least_32 : 2 ^ 32 - 1 <= ULONG_MAX a.
Proof. unfold ULONG_MAX. destruct a; cbn; lia. Qed.

Lemma decode_epoch_named (payload : string) (v : Z) (word name : string) :
  strtoul a (cstr payload)
  = (v, String " "%char (word ++ String " "%char name)) ->
  strchr word " "%char = None ->
  decode_epoch payload =
  if dagalgo_code name <? 0 then inl (unknown_algorithm name)
  else inr (to_unsigned v, dagalgo_code name).
Proof.
  intros Hp Hword. unfold decode_epoch. rewrite Hp.
  cbn [deref next_char].
  change (code " " =? 0) with false. change (code " " =? 32) with true.
  cbn [negb andb]. now rewrite (strchr_after_word _ _ Hword).
Qed.

Lemma decode_epoch_bare (payload : string) (v : Z) :
  strtoul a (cstr payload) = (v, EmptyString) ->
  decode_epoch payload = inr (to_unsigned v, da_ethash).
Proof. intros Hp. unfold decode_epoch. now rewrite Hp. Qed.

Lemma decode_epoch_one_word (payload : string) (v : Z) (name : string) :
  strtoul a (cstr payload) = (v, String " "%char name) ->
  strchr name " "%char = None ->
  decode_epoch payload = inl algorithm_name_missing.
Proof.
  intros Hp Hname. unfold decode_epoch. rewrite Hp.
  cbn [deref next_char].
  change (code " " =? 0) with false. change (code " " =? 32) with true.
  cbn [negb andb]. now rewrite Hname.
Qed.

(** C1, as amended. An epoch payload whose number is followed by a space, a
    word without a space, another space and a name that the lookup resolves
    leaves [curr_algo] at the code of the name and, for a number below
    65536, [curr_epoch] at the number; what is looked up is what follows the
    second space. A payload that is only a number leaves [curr_algo] at
    [da_ethash]. When the name does not resolve, and when a single word
    follows the number, the message is dropped: a line on stderr, no
    variable changed, no callback called. *)
Theorem epoch_payload_decoded :
  forall (st : state) (payload : string) (v : Z) (end_ : string),
    strtoul a (cstr payload) = (v, end_) ->
    let n := to_unsigned v in
    let st' := exec (message MQTT_TOPIC_EPOCH payload) st in
    (end_ = EmptyString ->
     curr_algo st' = da_ethash /\ (n < 65536 -> curr_epoch st' = n))
    /\ (forall word name : string,
          end_ = String " "%char (word ++ String " "%char name) ->
          strchr word " "%char = None ->
          (0 <= dagalgo_code name ->
           curr_algo st' = dagalgo_code name
           /\ (n < 65536 -> curr_epoch st' = n))
          /\ (dagalgo_code name < 0 ->
              message MQTT_TOPIC_EPOCH payload st =
              (tt, st, [ {| seen := st;
                            act := Stderr (unknown_algorithm name) |} ])))
    /\ (forall name : string,
          end_ = String " "%char name ->
          strchr name " "%char = None ->
          message MQTT_TOPIC_EPOCH payload st =
          (tt, st, [ {| seen := st; act := Stderr algorithm_name_missing |} ])).
Proof.
  intros st payload v end_ Hp n st'.
  pose proof (message_epoch_decoded payload st) as E.
  pose proof (to_unsigned_nonneg v) as Hn. fold n in Hn.
  split; [|split].
  - intros ->. rewrite (decode_epoch_bare payload v Hp) in E.
    unfold st', exec. rewrite E. split.
    + apply epoch_result_algo.
    + intros Hlt. apply epoch_result_epoch. lia.
  - intros word name -> Hword.
    rewrite (decode_epoch_named payload v word name Hp Hword) in E.
    split.
    + intros Hc. apply Z.ltb_ge in Hc. rewrite Hc in E.
      unfold st', exec. rewrite E. split.
      * apply epoch_result_algo.
      * intros Hlt. apply epoch_result_epoch. lia.
    + intros Hc. apply Z.ltb_lt in Hc. now rewrite Hc in E.
  - intros name -> Hname.
    now rewrite (decode_epoch_one_word payload v name Hp Hname) in E.
Qed.

(** The same for a payload spelled out: a decimal numeral below 65536, a
    word and a name, none with a NUL. *)
Lemma epoch_numeral_payload (st : state) (ds word name : string) :
  numeral ds = true -> decimal_value 0 ds < 65536 ->
  no_nul word = true -> strchr word " "%char = None ->
  no_nul name = true -> 0 <= dagalgo_code name ->
  let payload :=
    (ds ++ String " "%char (word ++ String " "%char name))%string in
  let st' := exec (message MQTT_TOPIC_EPOCH payload) st in
  curr_algo st' = dagalgo_code name /\ curr_epoch st' = decimal_value 0 ds.
Proof.
  intros Hn Hlt Hw Hword Hname Hc payload st'.
  assert (Hall : all_decimal ds = true).
  { destruct ds; [discriminate|]. cbn [numeral] in Hn.
    now apply andb_prop in Hn as [_ Hn]. }
  pose proof (decimal_value_nonneg ds 0 Hall (Z.le_refl 0)) as H0.
  assert (Hcstr : cstr payload = payload).
  { apply cstr_no_nul, no_nul_app; [now apply all_decimal_no_nul|].
    change (no_nul (String " "%char word ++ String " "%char name)%string
            = true).
    apply no_nul_app; [exact Hw | exact Hname]. }
  assert (Hp : strtoul a (cstr payload)
               = (decimal_value 0 ds,
                  String " "%char (word ++ String " "%char name))).
  { rewrite Hcstr. apply strtoul_numeral; [exact Hn|reflexivity|].
    pose proof ULONG_MAX_at_least_32. lia. }
  assert (Hu : to_unsigned (decimal_value 0 ds) = decimal_value 0 ds).
  { unfold to_unsigned, UINT_BITS. apply Z.mod_small. lia. }
  unfold st', exec. rewrite message_epoch_decoded.
  rewrite (decode_epoch_named payload _ word name Hp Hword), Hu.
  apply Z.ltb_ge in Hc. rewrite Hc. split.
  - apply epoch_result_algo.
  - apply epoch_result_epoch. lia.
Qed.

(** X5. Below 65536 the epoch path is idempotent: the same payload once
    more changes no variable and calls no callback. *)
Lemma epoch_message_repeated_in_range (st : state) (payload : string) :
  match decode_epoch payload with
  | inr (n, _) => n < 65536
  | inl _ => True
  end ->
  let st' := exec (message MQTT_TOPIC_EPOCH payload) st in
  exec (message MQTT_TOPIC_EPOCH payload) st' = st'
  /\ calls (trace (message MQTT_TOPIC_EPOCH payload) st') = [].
Proof.
  intros H st'. unfold exec, trace in *.
  rewrite (message_epoch_decoded payload st'). subst st'.
  rewrite (message_epoch_decoded payload st).
  assert (Hn : match decode_epoch payload with
               | inr (n, _) => 0 <= n | inl _ => True end).
  { unfold decode_epoch. destruct (strtoul a (cstr payload)) as [v end_].
    repeat match goal with
           | |- context [if ?b then _ else _] => destruct b
           | |- context [match ?o with Some _ => _ | None => _ end] =>
               destruct o
           end; try exact I; apply to_unsigned_nonneg. }
  destruct (decode_epoch payload) as [d|[n algo]]; [now cbn|].
  pose proof (epoch_result_algo algo n st) as Ha.
  pose proof (epoch_result_epoch algo n st (conj Hn H)) as He.
  destruct (epoch_result algo n st) as [[u s1] t1]. cbn [fst snd] in *.
  unfold epoch_result. rewrite Ha, He, !Z.eqb_refl. now cbn.
Qed.

(** C4, the failing input. With one callback registered for the epoch, the
    payload 65536 delivered twice calls it twice: the number is stored in
    the 16 bits of [curr_epoch] as 0, and the comparison of the second
    delivery is between 65536 and that 0. *)
Theorem epoch_65536_repeated_notifies_again :
  forall fn user : Z,
    let st := exec (mqtt_subscribe mqtt_notify_epoch fn user) initial_state in
    calls (trace (message MQTT_TOPIC_EPOCH "65536" ;;
                  message MQTT_TOPIC_EPOCH "65536") st)
    = [(fn, user); (fn, user)]
    /\ curr_epoch (exec (message MQTT_TOPIC_EPOCH "65536") st) = 0
    /\ calls (trace (message MQTT_TOPIC_EPOCH "65536")
                    (exec (message MQTT_TOPIC_EPOCH "65536") st))
       = [(fn, user)].
Proof.
  intros fn user st.
  assert (D : decode_epoch "65536" = inr (65536, da_ethash))
    by (unfold decode_epoch; destruct a; reflexivity).
  assert (R : forall s0, curr_epoch s0 = 0 ->
            message MQTT_TOPIC_EPOCH "65536" s0 =
            (tt, set_curr_epoch 0 (set_curr_algo da_ethash s0),
             notified mqtt_notify_epoch
               (set_curr_epoch 0 (set_curr_algo da_ethash s0)))).
  { intros s0 H0. rewrite message_epoch_decoded, D. unfold epoch_result.
    rewrite H0. change (65536 =? 0) with false. rewrite andb_false_r.
    reflexivity. }
  unfold exec, trace, bind.
  rewrite (R st eq_refl). cbn [fst snd].
  rewrite (R (set_curr_epoch 0 (set_curr_algo da_ethash st)) eq_refl).
  repeat split.
Qed.

Lemma code_inj (c d : ascii) : code c = code d -> c = d.
Proof.
  unfold code. intros H. apply N2Z.inj in H.
  rewrite <- (ascii_N_embedding c), <- (ascii_N_embedding d). now rewrite H.
Qed.

(** Against a string without NUL, [strncmp] over its length tests whether
    the payload starts with it. *)
Lemma strncmp_prefix (s p : string) :
  no_nul s = true ->
  strncmp s (cstr p) (String.length s) = 0 <->
  exists rest, p = (s ++ rest)%string.
Proof.
  revert p. induction s as [|c s IH]; intros p Hs.
  - split; [intros _; now exists p | reflexivity].
  - cbn in Hs. apply andb_prop in Hs as [Hc Hs].
    apply negb_true_iff, Z.eqb_neq in Hc.
    cbn [String.length strncmp].
    assert (Hno : ~ exists rest, EmptyString = (String c s ++ rest)%string)
      by (intros [rest H]; discriminate).
    destruct p as [|d p]; cbn [cstr].
    + split; [intros H; now apply Hc in H | intros H; now apply Hno in H].
    + destruct (code d =? 0) eqn:Hd.
      * apply Z.eqb_eq in Hd. split; [intros H; now apply Hc in H|].
        intros [rest H]. injection H as -> _. congruence.
      * destruct (code c =? code d) eqn:Hcd.
        -- apply Z.eqb_eq, code_inj in Hcd. subst d.
           rewrite (IH p Hs). split; intros [rest H]; exists rest.
           ++ cbn. now rewrite H.
           ++ now injection H.
        -- apply Z.eqb_neq in Hcd. split; [lia|].
           intros [rest H]. injection H as -> _. congruence.
Qed.

Lemma message_mined_state_run (payload : string) (st : state) :
  let next_hold :=
    strncmp HOLD_STATE (cstr payload) (String.length HOLD_STATE) =? 0 in
  let st' := set_hold next_hold st in
  message MQTT_TOPIC_MINED_STATE payload st =
  (tt, st',
   (if Bool.eqb (hold st) next_hold then []
    else [ {| seen := st; act := Debug 2 next_hold |} ])
   ++ notified mqtt_notify_mined_state st').
Proof.
  intros next_hold st'. rewrite message_on_mined_state_topic.
  unfold message_of_type, bind, get, modify. fold next_hold.
  destruct (Bool.eqb (hold st) next_hold); cbn [negb];
    unfold emit, ret; rewrite notify_run; reflexivity.
Qed.

(** C2, as amended. The hold flag decoded from a payload of the mined-state
    topic is true exactly when the payload starts with the thirteen bytes of
    [HOLD_STATE], its final space included. [message] stores it in [hold]
    and then calls every callback registered for the mined state, whether
    or not the flag changed; the callbacks find [hold] already updated. Only
    the debug line depends on a change. *)
Theorem mined_state_always_notifies :
  forall (st : state) (payload : string),
    let next_hold :=
      strncmp HOLD_STATE (cstr payload) (String.length HOLD_STATE) =? 0 in
    let st' := set_hold next_hold st in
    (next_hold = true <-> exists rest, payload = (HOLD_STATE ++ rest)%string)
    /\ message MQTT_TOPIC_MINED_STATE payload st =
       (tt, st',
        (if Bool.eqb (hold st) next_hold then []
         else [ {| seen := st; act := Debug 2 next_hold |} ])
        ++ notified mqtt_notify_mined_state st')
    /\ calls (trace (message MQTT_TOPIC_MINED_STATE payload) st) =
       map (fun s => (sub_fn s, sub_user s))
           (subscribers mqtt_notify_mined_state st)
    /\ hold st' = next_hold.
Proof.
  intros st payload next_hold st'. split; [|split; [|split]].
  - unfold next_hold. rewrite Z.eqb_eq. now apply strncmp_prefix.
  - apply message_mined_state_run.
  - unfold trace. rewrite message_mined_state_run. cbn [snd].
    rewrite calls_app, calls_notified.
    destruct (Bool.eqb (hold st) _); reflexivity.
  - reflexivity.
Qed.

Lemma no_digits_cstr (p : string) :
  no_digits p = true -> no_digits (cstr p) = true.
Proof.
  induction p as [|c p IH]; [reflexivity|]. cbn. intros H.
  apply andb_prop in H as [Hc Hp].
  destruct (code c =? 0); [reflexivity|]. cbn. now rewrite Hc, IH.
Qed.

Lemma no_digits_skip_space (s : string) :
  no_digits s = true -> no_digits (skip_space s) = true.
Proof.
  induction s as [|c s IH]; [reflexivity|]. intros H. cbn [skip_space].
  destruct (isspace c); [|exact H].
  cbn in H. apply andb_prop in H as [_ H]. now apply IH.
Qed.

Lemma no_digits_head (c : ascii) (r : string) :
  no_digits (String c r) = true ->
  (code c =? 48) = false /\ is_digit 10 c = false.
Proof.
  cbn [no_digits]. intros H. apply andb_prop in H as [H _].
  apply negb_true_iff in H. unfold is_decimal in H. split.
  - apply Z.eqb_neq. intros E. rewrite E in H. discriminate.
  - unfold is_digit, digit_value. cbv zeta. rewrite H.
    repeat match goal with
           | |- context [if ?b then _ else _] => destruct b eqn:?
           end; try reflexivity; apply Z.ltb_ge;
      repeat match goal with
             | G : _ && _ = true |- _ => apply andb_prop in G as [? ?]
             | G : (_ <=? _) = true |- _ => apply Z.leb_le in G
             end; lia.
Qed.

Lemma select_base_no_digits (s : string) :
  no_digits s = true -> select_base s = (10, s).
Proof.
  destruct s as [|c0 r]; [reflexivity|]. intros H.
  destruct (no_digits_head _ _ H) as [H0 _]. unfold select_base.
  rewrite H0. cbn [andb]. destruct r as [|c1 [|c2 r]]; reflexivity.
Qed.

(** Without a decimal digit in the string [strtoul] converts nothing. *)
Lemma strtoul_no_digits (s : string) :
  no_digits s = true -> strtoul a s = (0, s).
Proof.
  intros H. unfold strtoul.
  pose proof (no_digits_skip_space s H) as Hs.
  destruct (skip_space s) as [|c r] eqn:E; [reflexivity|].
  assert (Hr : no_digits r = true)
    by (cbn in Hs; now apply andb_prop in Hs as [_ Hs]).
  assert (T : forall t, no_digits t = true ->
            (let '(base, digits) := select_base t in
             match digits with
             | String c0 _ =>
                 if is_digit base c0
                 then
                   let '(v, rest) := scan_digits base 0 digits in
                   if ULONG_MAX a <? v then (ULONG_MAX a, rest)
                   else (v, rest)
                 else (0, s)
             | EmptyString => (0, s)
             end) = (0, s)
            /\ (let '(base, digits) := select_base t in
                match digits with
                | String c0 _ =>
                    if is_digit base c0
                    then
                      let '(v, rest) := scan_digits base 0 digits in
                      if ULONG_MAX a <? v then (ULONG_MAX a, rest)
                      else ((2 ^ ulong_bits a - v) mod 2 ^ ulong_bits a, rest)
                    else (0, s)
                | EmptyString => (0, s)
                end) = (0, s)).
  { intros t Ht. rewrite (select_base_no_digits t Ht).
    destruct t as [|c0 t]; [now split|].
    destruct (no_digits_head _ _ Ht) as [_ ->]. now split. }
  destruct (code c =? 45); [apply (T r Hr)|].
  destruct (code c =? 43); [apply (T r Hr)|].
  apply (T (String c r) Hs).
Qed.

(** The variables and the calls after lines 131 to 135 of [process_epoch],
    spelled out. *)
Lemma epoch_result_outcome (algo n : Z) (st : state) :
  0 <= n < 65536 ->
  snd (fst (epoch_result algo n st)) = set_curr_epoch n (set_curr_algo algo st)
  /\ calls (snd (epoch_result algo n st)) =
     if (algo =? curr_algo st) && (n =? curr_epoch st) then []
     else map (fun s => (sub_fn s, sub_user s))
              (subscribers mqtt_notify_epoch st).
Proof.
  intros Hn. unfold epoch_result.
  destruct ((algo =? curr_algo st) && (n =? curr_epoch st)) eqn:E.
  - apply andb_prop in E as [E1 E2]. apply Z.eqb_eq in E1, E2.
    subst algo n. split; [now destruct st | reflexivity].
  - cbn [fst snd]. unfold to_uint16. rewrite Z.mod_small by lia.
    split; [reflexivity|]. now rewrite calls_notified.
Qed.

(** C6, as amended. For a payload without any decimal digit [strtoul]
    converts nothing and leaves [end] at the start of the payload. Such a
    payload is dropped on both numeric topics when its first byte is
    neither NUL nor a space. When it is empty (or starts with NUL) it is
    taken as the number 0: on the shutdown topic the flag is cleared and the
    callbacks are called, on the epoch topic the epoch is 0 with
    [da_ethash]. When it starts with a space, the shutdown topic takes it
    as 0 in the same way, and the epoch topic takes the rest as the names:
    with no second space the message is dropped, with a word, a space and
    a name it is dropped when the name is unknown and is epoch 0 with the
    algorithm of the name otherwise. *)
Theorem payload_without_digits :
  forall (st : state) (payload : string),
    no_digits payload = true ->
    strtoul a (cstr payload) = (0, cstr payload)
    /\ (deref (cstr payload) <> 0 -> deref (cstr payload) <> 32 ->
        forall topic,
          topic = MQTT_TOPIC_EPOCH \/ topic = MQTT_TOPIC_SHUTDOWN ->
          message topic payload st =
          (tt, st, [ {| seen := st;
                        act := Stderr (bad_number (cstr payload)) |} ]))
    /\ (deref (cstr payload) = 0 \/ deref (cstr payload) = 32 ->
        message MQTT_TOPIC_SHUTDOWN payload st =
        (tt, set_shutdown_pending false st,
         notified mqtt_notify_shutdown (set_shutdown_pending false st)))
    /\ (cstr payload = EmptyString ->
        exec (message MQTT_TOPIC_EPOCH payload) st =
          set_curr_epoch 0 (set_curr_algo da_ethash st)
        /\ calls (trace (message MQTT_TOPIC_EPOCH payload) st) =
           if (da_ethash =? curr_algo st) && (0 =? curr_epoch st) then []
           else map (fun s => (sub_fn s, sub_user s))
                    (subscribers mqtt_notify_epoch st))
    /\ (forall name : string,
          cstr payload = String " "%char name ->
          strchr name " "%char = None ->
          message MQTT_TOPIC_EPOCH payload st =
          (tt, st, [ {| seen := st; act := Stderr algorithm_name_missing |} ]))
    /\ (forall word name : string,
          cstr payload = String " "%char (word ++ String " "%char name) ->
          strchr word " "%char = None ->
          (dagalgo_code name < 0 ->
           message MQTT_TOPIC_EPOCH payload st =
           (tt, st, [ {| seen := st;
                         act := Stderr (unknown_algorithm name) |} ]))
          /\ (0 <= dagalgo_code name ->
              exec (message MQTT_TOPIC_EPOCH payload) st =
                set_curr_epoch 0 (set_curr_algo (dagalgo_code name) st)
              /\ calls (trace (message MQTT_TOPIC_EPOCH payload) st) =
                 if (dagalgo_code name =? curr_algo st)
                    && (0 =? curr_epoch st)
                 then []
                 else map (fun s => (sub_fn s, sub_user s))
                          (subscribers mqtt_notify_epoch st))).
Proof.
  intros st payload Hnd.
  pose proof (strtoul_no_digits _ (no_digits_cstr _ Hnd)) as Hp.
  pose proof (message_epoch_decoded payload st) as E.
  assert (H16 : 0 <= 0 < 65536) by lia.
  split; [exact Hp|split; [|split; [|split; [|split]]]].
  - intros H0 H32 topic Htopic.
    now apply (message_bad_number_run st topic payload 0 (cstr payload)).
  - intros He.
    apply (message_shutdown_run payload st 0 (cstr payload) Hp He).
  - intros Hbuf. rewrite Hbuf in Hp at 2.
    rewrite (decode_epoch_bare payload 0 Hp) in E.
    change (to_unsigned 0) with 0 in E.
    unfold exec, trace. rewrite E.
    apply (epoch_result_outcome da_ethash 0 st H16).
  - intros name Hbuf Hname. rewrite Hbuf in Hp at 2.
    now rewrite (decode_epoch_one_word payload 0 name Hp Hname) in E.
  - intros word name Hbuf Hword. rewrite Hbuf in Hp at 2.
    rewrite (decode_epoch_named payload 0 word name Hp Hword) in E.
    change (to_unsigned 0) with 0 in E. split.
    + intros Hc. apply Z.ltb_lt in Hc. now rewrite Hc in E.
    + intros Hc. apply Z.ltb_ge in Hc. rewrite Hc in E.
      unfold exec, trace. rewrite E.
      apply (epoch_result_outcome (dagalgo_code name) 0 st H16).
Qed.

Lemma notified_not_abort (type : mqtt_notify_type) (st : state) (e : event) :
  In e (notified type st) -> act e <> Abort.
Proof.
  unfold notified. intros H. apply in_map_iff in H as (s & <- & _).
  discriminate.
Qed.

(** X1. The [default:] of the switch in [message] is never reached:
    whatever the topic, the payload and the variables, [message] does not
    call [abort]. *)
Lemma message_never_aborts (topic payload : string) (st : state) (e : event) :
  In e (trace (message topic payload) st) -> act e <> Abort.
Proof.
  unfold trace.
  destruct (String.eqb_spec topic MQTT_TOPIC_EPOCH) as [->|N1].
  - rewrite message_epoch_decoded.
    destruct (decode_epoch payload) as [d|[n algo]].
    + intros [<-|[]]. discriminate.
    + unfold epoch_result.
      destruct ((algo =? curr_algo st) && (n =? curr_epoch st));
        [intros [] | apply notified_not_abort].
  - destruct (String.eqb_spec topic MQTT_TOPIC_MINED_STATE) as [->|N2].
    + rewrite message_mined_state_run. cbn [snd]. intros H.
      apply in_app_or in H as [H|H]; [|now apply notified_not_abort in H].
      destruct (Bool.eqb (hold st) _); [destruct H|].
      destruct H as [<-|[]]. discriminate.
    + destruct (String.eqb_spec topic MQTT_TOPIC_SHUTDOWN) as [->|N3].
      * rewrite message_on_shutdown_topic. unfold message_of_type.
        destruct (strtoul a (cstr payload)) as [v end_].
        destruct (negb (deref end_ =? 0) && negb (deref end_ =? 32)).
        -- intros [<-|[]]. discriminate.
        -- unfold message_number, bind, modify. rewrite notify_run.
           apply notified_not_abort.
      * apply String.eqb_neq in N1, N2, N3.
        unfold message, strcmp_eq. rewrite N1, N2, N3.
        intros [<-|[]]. discriminate.
Qed.

(** A decoded epoch message carries the code of a known algorithm or
    [da_ethash]. *)
Lemma decode_epoch_algo (payload : string) (n algo : Z) :
  decode_epoch payload = inr (n, algo) ->
  0 <= algo \/ algo = da_ethash.
Proof.
  unfold decode_epoch. destruct (strtoul a (cstr payload)) as [v end_].
  destruct (negb (deref end_ =? 0) && negb (deref end_ =? 32));
    [discriminate|].
  destruct (negb (deref end_ =? 0)).
  - destruct (strchr (next_char end_) " "%char) as [next|]; [|discriminate].
    destruct (dagalgo_code (next_char next) <? 0) eqn:E; [discriminate|].
    intros H. injection H as _ <-. left. now apply Z.ltb_ge.
  - intros H. injection H as _ <-. now right.
Qed.

(** [message] changes [curr_algo] only on the epoch topic, for a payload
    that decodes and differs from the variables. *)
Lemma message_curr_algo (topic payload : string) (st : state) :
  curr_algo (exec (message topic payload) st) = curr_algo st
  \/ (topic = MQTT_TOPIC_EPOCH
      /\ exists n algo,
           decode_epoch payload = inr (n, algo)
           /\ (algo <> curr_algo st \/ n <> curr_epoch st)
           /\ curr_algo (exec (message topic payload) st) = algo).
Proof.
  destruct (String.eqb_spec topic MQTT_TOPIC_EPOCH) as [->|N1].
  - unfold exec. rewrite message_epoch_decoded.
    destruct (decode_epoch payload) as [d|[n algo]]; [now left|].
    pose proof (epoch_result_algo algo n st) as Ha.
    unfold epoch_result in *.
    destruct ((algo =? curr_algo st) && (n =? curr_epoch st)) eqn:E;
      [now left|].
    right. split; [reflexivity|]. exists n, algo.
    split; [reflexivity|split; [|exact Ha]].
    apply andb_false_iff in E as [E|E]; apply Z.eqb_neq in E; tauto.
  - left. destruct (String.eqb_spec topic MQTT_TOPIC_MINED_STATE) as [->|N2].
    + unfold exec. now rewrite message_mined_state_run.
    + destruct (String.eqb_spec topic MQTT_TOPIC_SHUTDOWN) as [->|N3].
      * unfold exec. rewrite message_on_shutdown_topic.
        unfold message_of_type.
        destruct (strtoul a (cstr payload)) as [v end_].
        destruct (negb (deref end_ =? 0) && negb (deref end_ =? 32));
          [reflexivity|].
        unfold message_number, bind, modify. now rewrite notify_run.
      * apply String.eqb_neq in N1, N2, N3.
        unfold exec, message, strcmp_eq. now rewrite N1, N2, N3.
Qed.

Lemma run_operation_curr_algo (o : operation) (st : state) :
  curr_algo (exec (run_operation o) st) = curr_algo st
  \/ exists payload n algo,
       o = op_message MQTT_TOPIC_EPOCH payload
       /\ decode_epoch payload = inr (n, algo)
       /\ (algo <> curr_algo st \/ n <> curr_epoch st)
       /\ curr_algo (exec (run_operation o) st) = algo.
Proof.
  destruct o as [topic payload|type fn user|t res s flush].
  - cbn [run_operation].
    destruct (message_curr_algo topic payload st)
      as [H|[-> (n & algo & H)]]; [now left|].
    right. now exists payload, n, algo.
  - now left.
  - left. cbn [run_operation]. unfold exec, mqtt_status, bind, get.
    destruct ((t =? last st) && negb flush); [reflexivity|].
    cbn. destruct (res =? MOSQ_ERR_SUCCESS); reflexivity.
Qed.

Lemma exec_run_operations_cons (o : operation) (os : list operation)
    (st : state) :
  exec (run_operations (o :: os)) st =
  exec (run_operations os) (exec (run_operation o) st).
Proof.
  unfold exec. cbn [run_operations]. unfold bind.
  destruct (run_operation o st) as [[u s1] t1]. cbn [fst snd].
  destruct (run_operations os s1) as [[u2 s2] t2]. reflexivity.
Qed.

(** C9. Provided the code of ethash is not the unset value -1: an epoch
    message that decodes leaves [curr_algo] at its algorithm code, which is
    not -1; an operation of the module that changes [curr_algo] is the
    delivery of an epoch message that decodes to an algorithm or an epoch
    other than the current ones; and once [curr_algo] is not -1 no sequence
    of operations makes it -1 again. *)
Theorem curr_algo_set_once_then_only_by_epoch :
  da_ethash <> -1 ->
  (forall (st : state) (payload : string) (n algo : Z),
     decode_epoch payload = inr (n, algo) ->
     curr_algo (exec (message MQTT_TOPIC_EPOCH payload) st) = algo
     /\ algo <> -1)
  /\ (forall (st : state) (o : operation),
        curr_algo (exec (run_operation o) st) <> curr_algo st ->
        exists payload n algo,
          o = op_message MQTT_TOPIC_EPOCH payload
          /\ decode_epoch payload = inr (n, algo)
          /\ (algo <> curr_algo st \/ n <> curr_epoch st)
          /\ curr_algo (exec (run_operation o) st) = algo)
  /\ (forall (st : state) (payload : string) (n algo : Z)
        (os : list operation),
        decode_epoch payload = inr (n, algo) ->
        curr_algo (exec (run_operations
                           (op_message MQTT_TOPIC_EPOCH payload :: os)) st)
        <> -1).
Proof.
  intros Heth.
  assert (Hset : forall st payload n algo,
            decode_epoch payload = inr (n, algo) ->
            curr_algo (exec (message MQTT_TOPIC_EPOCH payload) st) = algo
            /\ algo <> -1).
  { intros st payload n algo D. split.
    - unfold exec. rewrite message_epoch_decoded, D.
      apply epoch_result_algo.
    - destruct (decode_epoch_algo _ _ _ D) as [H|H]; [lia|congruence]. }
  assert (Hkeep : forall os st,
            curr_algo st <> -1 ->
            curr_algo (exec (run_operations os) st) <> -1).
  { induction os as [|o os IH]; intros st Hst; [exact Hst|].
    rewrite exec_run_operations_cons. apply IH.
    destruct (run_operation_curr_algo o st)
      as [H|(payload & n & algo & _ & D & _ & H)].
    - now rewrite H.
    - rewrite H. destruct (decode_epoch_algo _ _ _ D) as [G|G];
        [lia|congruence]. }
  split; [exact Hset|split].
  - intros st o Hchg.
    destruct (run_operation_curr_algo o st) as [H|H]; [contradiction|exact H].
  - intros st payload n algo os D.
    rewrite exec_run_operations_cons. apply Hkeep.
    cbn [run_operation]. destruct (Hset st payload n algo D) as [-> H].
    exact H.
Qed.

(** ** What a message does, whatever the topic *)

(** Every run of [message] is some lines of log, with no call among them,
    followed by nothing or by the notification of the type of the topic,
    made with the variables as [message] leaves them; the registry, [last]
    and [curr_block] are not written. *)
Lemma message_shape (topic payload : string) (st : state) :
  exists (st' : state) (log tail : list event),
    message topic payload st = (tt, st', log ++ tail)
    /\ calls log = []
    /\ (tail = [] \/
        exists type, selects topic type /\ tail = notified type st')
    /\ sub st' = sub st /\ last st' = last st
    /\ curr_block st' = curr_block st.
Proof.
  destruct (String.eqb_spec topic MQTT_TOPIC_EPOCH) as [->|N1].
  - rewrite message_epoch_decoded.
    destruct (decode_epoch payload) as [d|[n algo]].
    + exists st, [ {| seen := st; act := Stderr d |} ], [].
      repeat split; auto.
    + unfold epoch_result.
      destruct ((algo =? curr_algo st) && (n =? curr_epoch st)).
      * exists st, [], []. repeat split; auto.
      * eexists _, [], _. split; [reflexivity|].
        repeat split; auto. right. eexists. split; [constructor|reflexivity].
  - destruct (String.eqb_spec topic MQTT_TOPIC_MINED_STATE) as [->|N2].
    + rewrite message_mined_state_run.
      eexists _, _, _. split; [reflexivity|]. repeat split; auto.
      * destruct (Bool.eqb (hold st) _); reflexivity.
      * right. eexists. split; [constructor|reflexivity].
    + destruct (String.eqb_spec topic MQTT_TOPIC_SHUTDOWN) as [->|N3].
      * rewrite message_on_shutdown_topic. unfold message_of_type.
        destruct (strtoul a (cstr payload)) as [v end_].
        destruct (negb (deref end_ =? 0) && negb (deref end_ =? 32)).
        -- eexists st, [_], []. split; [reflexivity|]. repeat split; auto.
        -- unfold message_number, bind, modify. rewrite notify_run.
           eexists _, [], _. split; [reflexivity|]. repeat split; auto.
           right. eexists. split; [constructor|reflexivity].
      * apply String.eqb_neq in N1, N2, N3.
        unfold message, strcmp_eq. rewrite N1, N2, N3.
        eexists st, [_], []. split; [reflexivity|]. repeat split; auto.
Qed.

Lemma subscribers_same_registry (type : mqtt_notify_type) (st st' : state) :
  sub st' = sub st -> subscribers type st' = subscribers type st.
Proof. unfold subscribers. now intros ->. Qed.

(** X2. Each operation of mqtt.c writes its own variables only. A message
    never touches the registry or [last]; [mqtt_subscribe] touches nothing
    but the registry and [mqtt_status] nothing but [last], and neither calls
    a callback; [curr_block] is written by none of them. *)
Theorem operations_write_their_own_variables :
  forall (o : operation) (st : state),
    let st' := exec (run_operation o) st in
    curr_block st' = curr_block st
    /\ match o with
       | op_message _ _ => sub st' = sub st /\ last st' = last st
       | op_subscribe type fn user =>
           st' = set_sub (sub st ++ [ {| sub_type := type; sub_fn := fn;
                                         sub_user := user |} ]) st
           /\ trace (run_operation o) st = []
       | op_status t _ _ _ =>
           (st' = st \/ st' = set_last t st)
           /\ calls (trace (run_operation o) st) = []
       end.
Proof.
  intros [topic payload|type fn user|t res s flush] st st'; subst st'.
  - cbn [run_operation]. unfold exec.
    destruct (message_shape topic payload st)
      as (st' & log & tail & -> & _ & _ & Hs & Hl & Hb).
    cbn [fst snd]. auto.
  - repeat split.
  - cbn [run_operation]. unfold exec, trace, mqtt_status, bind, get.
    destruct ((t =? last st) && negb flush); [cbn; auto|].
    cbn. destruct (res =? MOSQ_ERR_SUCCESS); cbn; auto.
Qed.

(** X3. A message calls the callbacks of the type of its topic, all of them
    in the order of registration or none, and never a callback registered
    for another type; a message on any other topic calls none. *)
Theorem message_calls_only_its_type :
  forall (topic payload : string) (st : state),
    calls (trace (message topic payload) st) = []
    \/ exists type,
         selects topic type
         /\ calls (trace (message topic payload) st) =
            map (fun s => (sub_fn s, sub_user s)) (subscribers type st).
Proof.
  intros topic payload st. unfold trace.
  destruct (message_shape topic payload st)
    as (st' & log & tail & -> & Hlog & Htail & Hs & _ & _).
  cbn [snd]. rewrite calls_app, Hlog. cbn [app].
  destruct Htail as [->|(type & Hsel & ->)]; [now left|].
  right. exists type. split; [exact Hsel|].
  rewrite calls_notified. now rewrite (subscribers_same_registry _ _ _ Hs).
Qed.

(** X4. The variables are written before any callback runs: every callback
    that a message calls finds the variables exactly as the message leaves
    them when it returns. *)
Theorem callbacks_see_the_final_variables :
  forall (topic payload : string) (st : state) (e : event) (fn user : Z),
    In e (trace (message topic payload) st) ->
    act e = Call fn user ->
    seen e = exec (message topic payload) st.
Proof.
  intros topic payload st e fn user. unfold trace, exec.
  destruct (message_shape topic payload st)
    as (st' & log & tail & -> & Hlog & Htail & _).
  cbn [fst snd]. intros Hin Hact. apply in_app_or in Hin as [Hin|Hin].
  - exfalso. clear Htail. induction log as [|x log IH]; [easy|].
    cbn [calls] in Hlog. destruct Hin as [->|Hin].
    + rewrite Hact in Hlog. discriminate.
    + apply IH; [|exact Hin]. destruct (act x); try exact Hlog.
      discriminate.
  - destruct Htail as [->|(type & _ & ->)]; [easy|].
    unfold notified in Hin. apply in_map_iff in Hin as (s0 & <- & _).
    reflexivity.
Qed.

Lemma decode_epoch_nonneg (payload : string) (n algo : Z) :
  decode_epoch payload = inr (n, algo) -> 0 <= n.
Proof.
  unfold decode_epoch. destruct (strtoul a (cstr payload)) as [v end_].
  destruct (negb (deref end_ =? 0) && negb (deref end_ =? 32));
    [discriminate|].
  destruct (negb (deref end_ =? 0)).
  - destruct (strchr (next_char end_) " "%char) as [next|]; [|discriminate].
    destruct (dagalgo_code (next_char next) <? 0); [discriminate|].
    intros H. injection H as <- _. apply to_unsigned_nonneg.
  - intros H. injection H as <- _. apply to_unsigned_nonneg.
Qed.

(** X6. For an epoch number below 65536, an epoch message calls the epoch
    callbacks exactly when it changes [curr_algo] or [curr_epoch]: either
    it leaves every variable as it was and calls nothing, or it changes the
    variables and calls every callback registered for the epoch. *)
Theorem epoch_notifies_exactly_on_change :
  forall (st : state) (payload : string),
    match decode_epoch payload with
    | inr (n, _) => n < 65536
    | inl _ => True
    end ->
    let st' := exec (message MQTT_TOPIC_EPOCH payload) st in
    (st' = st /\ calls (trace (message MQTT_TOPIC_EPOCH payload) st) = [])
    \/ (st' <> st
        /\ calls (trace (message MQTT_TOPIC_EPOCH payload) st) =
           map (fun s => (sub_fn s, sub_user s))
               (subscribers mqtt_notify_epoch st)).
Proof.
  intros st payload Hrange st'. subst st'. unfold exec, trace.
  rewrite message_epoch_decoded.
  destruct (decode_epoch payload) as [d|[n algo]] eqn:D; [now left|].
  pose proof (decode_epoch_nonneg _ _ _ D) as Hn.
  unfold epoch_result.
  destruct ((algo =? curr_algo st) && (n =? curr_epoch st)) eqn:E;
    [now left|].
  right. cbn [fst snd]. split; [|now rewrite calls_notified].
  intros Heq.
  assert (Ha : algo = curr_algo st) by now rewrite <- Heq.
  assert (He : to_uint16 n = curr_epoch st) by now rewrite <- Heq.
  unfold to_uint16 in He. rewrite Z.mod_small in He by lia.
  subst algo n. now rewrite !Z.eqb_refl in E.
Qed.

Lemma cstr_app_nul (p rest : string) :
  cstr (p ++ String NUL rest)%string = cstr p.
Proof.
  induction p as [|c p IH]; [reflexivity|]. cbn [append cstr].
  now rewrite IH.
Qed.

(** X7. The bytes of a payload from its first NUL on are ignored: a payload
    followed by a NUL and anything else is handled as the payload alone, on
    every topic. *)
Theorem payload_ends_at_first_nul :
  forall (topic payload rest : string) (st : state),
    message topic (payload ++ String NUL rest)%string st =
    message topic payload st.
Proof.
  intros topic payload rest st. unfold message, message_of_type.
  now rewrite cstr_app_nul.
Qed.

Lemma run_operation_sub (o : operation) (st : state) :
  sub (exec (run_operation o) st) = sub st ++ registrations [o].
Proof.
  destruct o as [topic payload|type fn user|t res s flush];
    cbn [registrations run_operation].
  - unfold exec.
    destruct (message_shape topic payload st)
      as (st' & log & tail & -> & _ & _ & Hs & _ & _).
    cbn [fst snd]. now rewrite app_nil_r.
  - reflexivity.
  - rewrite app_nil_r. unfold exec, mqtt_status, bind, get.
    destruct ((t =? last st) && negb flush); [reflexivity|].
    cbn. destruct (res =? MOSQ_ERR_SUCCESS); reflexivity.
Qed.

(** X8. The registry only grows, and only by [mqtt_subscribe]: after any
    sequence of messages, registrations and status calls it is the registry
    before, followed by the registrations of the sequence in their order.
    No entry is ever removed, replaced or moved. *)
Theorem registry_only_grows :
  forall (os : list operation) (st : state),
    sub (exec (run_operations os) st) = sub st ++ registrations os.
Proof.
  induction os as [|o os IH]; intros st.
  - cbn. now rewrite app_nil_r.
  - rewrite exec_run_operations_cons, IH, run_operation_sub.
    rewrite <- app_assoc. f_equal.
    destruct o; reflexivity.
Qed.

Lemma message_curr_epoch (topic payload : string) (st : state) :
  curr_epoch (exec (message topic payload) st) = curr_epoch st
  \/ exists n, curr_epoch (exec (message topic payload) st) = to_uint16 n.
Proof.
  unfold exec.
  destruct (String.eqb_spec topic MQTT_TOPIC_EPOCH) as [->|N1].
  - rewrite message_epoch_decoded.
    destruct (decode_epoch payload) as [d|[n algo]]; [now left|].
    unfold epoch_result.
    destruct ((algo =? curr_algo st) && (n =? curr_epoch st)); [now left|].
    right. now exists n.
  - left. destruct (String.eqb_spec topic MQTT_TOPIC_MINED_STATE) as [->|N2].
    + now rewrite message_mined_state_run.
    + destruct (String.eqb_spec topic MQTT_TOPIC_SHUTDOWN) as [->|N3].
      * rewrite message_on_shutdown_topic. unfold message_of_type.
        destruct (strtoul a (cstr payload)) as [v end_].
        destruct (negb (deref end_ =? 0) && negb (deref end_ =? 32));
          [reflexivity|].
        unfold message_number, bind, modify. now rewrite notify_run.
      * apply String.eqb_neq in N1, N2, N3.
        unfold message, strcmp_eq. now rewrite N1, N2, N3.
Qed.

(** X9. [curr_epoch] always holds a 16 bit value: when it is in the range
    of [uint16_t], it still is after any sequence of operations, whatever
    numbers the epoch messages carry. *)
Theorem curr_epoch_stays_16_bit :
  forall (os : list operation) (st : state),
    0 <= curr_epoch st < 65536 ->
    0 <= curr_epoch (exec (run_operations os) st) < 65536.
Proof.
  induction os as [|o os IH]; intros st Hst; [exact Hst|].
  rewrite exec_run_operations_cons. apply IH.
  destruct o as [topic payload|type fn user|t res s flush];
    cbn [run_operation].
  - destruct (message_curr_epoch topic payload st) as [->|[n ->]];
      [exact Hst|].
    unfold to_uint16. apply Z.mod_pos_bound. reflexivity.
  - exact Hst.
  - unfold exec, mqtt_status, bind, get.
    destruct ((t =? last st) && negb flush); [exact Hst|].
    cbn. destruct (res =? MOSQ_ERR_SUCCESS); exact Hst.
Qed.

Lemma run_status_last (c : status_call) (st : state) :
  last (exec (run_status c) st) = last st
  \/ last (exec (run_status c) st) = call_time c.
Proof.
  unfold run_status, exec, mqtt_status, bind, get.
  destruct ((call_time c =? last st) && negb (call_flush c)); [now left|].
  right. cbn. destruct (call_res c =? MOSQ_ERR_SUCCESS); reflexivity.
Qed.

(** X10. The rate limit never starves a second: whatever the order of the
    clock readings and whether or not calls are forced, every second in
    which [mqtt_status] is called, other than the second of the last
    delivery before the calls, sees a delivery. *)
Theorem every_called_second_delivers :
  forall (cs : list status_call) (st : state) (t : Z),
    In t (map call_time cs) ->
    t <> last st ->
    In t (delivery_times cs st).
Proof.
  induction cs as [|c cs IH]; intros st t Hin Hnew; [easy|].
  cbn [delivery_times].
  destruct (Z.eq_dec (call_time c) t) as [E|E].
  - assert (G : (call_time c =? last st) && negb (call_flush c) = false).
    { apply andb_false_iff. left. apply Z.eqb_neq. congruence. }
    unfold run_status at 1.
    destruct (published_passes st _ (call_res c) (call_text c) _ G)
      as [-> _].
    now left.
  - destruct Hin as [Hin|Hin]; [contradiction|].
    assert (Hnext : In t (delivery_times cs (exec (run_status c) st))).
    { apply IH; [exact Hin|].
      destruct (run_status_last c st) as [-> | ->]; congruence. }
    destruct (published (trace (run_status c) st));
      [exact Hnext | now right].
Qed.

Lemma append_empty (s : string) : (s ++ EmptyString)%string = s.
Proof. induction s as [|c s IH]; [reflexivity|]. cbn. now rewrite IH. Qed.

Lemma numeral_positive (ds : string) :
  numeral ds = true -> 0 < decimal_value 0 ds.
Proof.
  destruct ds as [|c ds]; [discriminate|]. cbn [numeral all_decimal].
  intros H. apply andb_prop in H as [H48 H].
  apply andb_prop in H as [Hc Hd].
  apply negb_true_iff, Z.eqb_neq in H48.
  unfold is_decimal in Hc. apply andb_prop in Hc as [Hlo _].
  apply Z.leb_le in Hlo. cbn [decimal_value].
  pose proof (decimal_value_nonneg ds (0 * 10 + (code c - 48)) Hd).
  lia.
Qed.

(** X11. On the shutdown topic a decimal numeral without leading zero and
    below 2^32 always sets [shutdown_pending] and notifies, under both
    widths of [unsigned long]. *)
Theorem shutdown_numeral_sets_pending :
  forall (st : state) (ds : string),
    numeral ds = true ->
    decimal_value 0 ds < 2 ^ 32 ->
    message MQTT_TOPIC_SHUTDOWN ds st =
    (tt, set_shutdown_pending true st,
     notified mqtt_notify_shutdown (set_shutdown_pending true st)).
Proof.
  intros st ds Hn Hlt.
  assert (Hall : all_decimal ds = true).
  { destruct ds; [discriminate|]. cbn [numeral] in Hn.
    now apply andb_prop in Hn as [_ Hn]. }
  pose proof (numeral_positive ds Hn) as Hpos.
  assert (Hp : strtoul a (cstr ds) = (decimal_value 0 ds, EmptyString)).
  { rewrite (cstr_no_nul ds (all_decimal_no_nul ds Hall)).
    rewrite <- (append_empty ds) at 1.
    apply strtoul_numeral; [exact Hn|reflexivity|].
    pose proof ULONG_MAX_at_least_32. lia. }
  pose proof (message_shutdown_run ds st _ _ Hp (or_introl eq_refl)) as E.
  cbv zeta in E. rewrite E.
  assert (Hu : to_unsigned (decimal_value 0 ds) = decimal_value 0 ds).
  { unfold to_unsigned, UINT_BITS. apply Z.mod_small. lia. }
  rewrite Hu.
  replace (decimal_value 0 ds =? 0) with false
    by (symmetry; apply Z.eqb_neq; lia).
  reflexivity.
Qed.

(** ** MQTT setup *)

(** X12. [connected] returns exactly when the connection result is 0 and
    no [mosquitto_subscribe] returns a negative value, after subscribing to
    the epoch topic (QoS 1), the mined-state topic (QoS 0) and the shutdown
    topic (QoS 1), in this order; a positive return value of
    [mosquitto_subscribe] is not taken as a failure. Otherwise the process
    exits with status 1, and with a non-zero connection result it does so
    before any subscription. *)
Theorem connected_subscribes_or_exits :
  forall result res_epoch res_mined res_shutdown : Z,
    (result = 0 /\ 0 <= res_epoch /\ 0 <= res_mined /\ 0 <= res_shutdown ->
     connected result res_epoch res_mined res_shutdown =
     ([ mosquitto_subscribe MQTT_TOPIC_EPOCH 1;
        mosquitto_subscribe MQTT_TOPIC_MINED_STATE 0;
        mosquitto_subscribe MQTT_TOPIC_SHUTDOWN 1 ], Returned tt))
    /\ (result <> 0 \/ res_epoch < 0 \/ res_mined < 0 \/ res_shutdown < 0 ->
        snd (connected result res_epoch res_mined res_shutdown) = Exited 1)
    /\ (result <> 0 ->
        connected result res_epoch res_mined res_shutdown =
        ([ setup_stderr (connect_failed result) ], Exited 1)).
Proof.
  intros result r1 r2 r3. unfold connected.
  destruct (Z.eqb_spec result 0) as [E|E];
    destruct (Z.ltb_spec r1 0); destruct (Z.ltb_spec r2 0);
    destruct (Z.ltb_spec r3 0); cbn;
    repeat split; intros; try reflexivity; try lia.
Qed.

Lemma notified_acts_are_calls (type : mqtt_notify_type) (st : state)
    (x : action) :
  In x (map act (notified type st)) -> exists fn user, x = Call fn user.
Proof.
  unfold notified. rewrite map_map. intros H.
  apply in_map_iff in H as (s & <- & _). cbn. eauto.
Qed.

Lemma recognized_topic_not_reported (topic payload : string) (st : state)
    (type : mqtt_notify_type) (t : string) :
  selects topic type ->
  ~ In (Stderr (unrecognized_topic t))
       (map act (trace (message topic payload) st)).
Proof.
  intros Hsel Hin. unfold trace in Hin. destruct Hsel.
  - rewrite message_epoch_decoded in Hin. unfold decode_epoch in Hin.
    destruct (strtoul a (cstr payload)) as [v end_].
    assert (R : forall algo n,
              ~ In (Stderr (unrecognized_topic t))
                   (map act (snd (epoch_result algo n st)))).
    { intros algo n. unfold epoch_result.
      destruct ((algo =? curr_algo st) && (n =? curr_epoch st)); [easy|].
      intros H. apply notified_acts_are_calls in H as (fn & user & H).
      discriminate. }
    destruct (negb (deref end_ =? 0) && negb (deref end_ =? 32)).
    { destruct Hin as [H|[]]. discriminate. }
    destruct (negb (deref end_ =? 0)); [|now apply R in Hin].
    destruct (strchr (next_char end_) " "%char) as [next|].
    + destruct (dagalgo_code (next_char next) <? 0);
        [|now apply R in Hin].
      destruct Hin as [H|[]]. discriminate.
    + destruct Hin as [H|[]]. discriminate.
  - rewrite message_mined_state_run in Hin. cbn [snd] in Hin.
    rewrite map_app in Hin. apply in_app_or in Hin as [H|H].
    + destruct (Bool.eqb (hold st) _); [easy|].
      destruct H as [H|[]]. discriminate.
    + apply notified_acts_are_calls in H as (fn & user & H). discriminate.
  - rewrite message_on_shutdown_topic in Hin. unfold message_of_type in Hin.
    destruct (strtoul a (cstr payload)) as [v end_].
    destruct (negb (deref end_ =? 0) && negb (deref end_ =? 32)).
    + destruct Hin as [H|[]]. discriminate.
    + unfold message_number, bind, modify in Hin. rewrite notify_run in Hin.
      cbn [snd app] in Hin.
      apply notified_acts_are_calls in Hin as (fn & user & H). discriminate.
Qed.

(** X13. The topics that [connected] subscribes to are exactly the topics
    that [message] recognizes: a message is reported as of an unrecognized
    topic if and only if its topic is none of the subscribed ones. *)
Theorem subscribed_topics_are_the_recognized_ones :
  forall (topic payload : string) (st : state),
    In topic (subscribed_topics (fst (connected 0 0 0 0))) <->
    ~ In (Stderr (unrecognized_topic topic))
         (map act (trace (message topic payload) st)).
Proof.
  intros topic payload st. split.
  - intros Hin. cbn in Hin.
    destruct Hin as [<-|[<-|[<-|[]]]];
      eapply recognized_topic_not_reported; constructor.
  - intros Hnot.
    destruct (String.eqb_spec topic MQTT_TOPIC_EPOCH) as [->|N1];
      [now left|].
    destruct (String.eqb_spec topic MQTT_TOPIC_MINED_STATE) as [->|N2];
      [right; now left|].
    destruct (String.eqb_spec topic MQTT_TOPIC_SHUTDOWN) as [->|N3];
      [right; right; now left|].
    exfalso. apply Hnot. apply String.eqb_neq in N1, N2, N3.
    unfold trace, message, strcmp_eq. rewrite N1, N2, N3. now left.
Qed.

Lemma strchr_after (c : ascii) (word rest : string) :
  strchr word c = None ->
  strchr (word ++ String c rest)%string c = Some (String c rest).
Proof.
  induction word as [|d word IH]; intros H.
  - cbn. now rewrite Ascii.eqb_refl.
  - cbn in H |- *. destruct (Ascii.eqb d c); [discriminate|]. now apply IH.
Qed.

Lemma strchr_absent_app_empty (c : ascii) (word : string) :
  strchr word c = None -> strchr (word ++ EmptyString)%string c = None.
Proof. now rewrite append_empty. Qed.

Lemma length_append (s t : string) :
  String.length (s ++ t)%string = (String.length s + String.length t)%nat.
Proof. induction s as [|c s IH]; [reflexivity|]. cbn. now rewrite IH. Qed.

Lemma strndup_prefix (s t : string) :
  strndup (s ++ t)%string (String.length s) = s.
Proof. induction s as [|c s IH]; [reflexivity|]. cbn. now rewrite IH. Qed.

Lemma strndup_up_to_colon (host rest : string) :
  strndup (host ++ rest)%string
          (String.length (host ++ rest)%string - String.length rest) = host.
Proof.
  rewrite length_append.
  replace (String.length host + String.length rest - String.length rest)%nat
    with (String.length host) by lia.
  apply strndup_prefix.
Qed.

Lemma strndup_whole (s : string) : strndup s (String.length s) = s.
Proof.
  rewrite <- (append_empty s) at 1. apply strndup_prefix.
Qed.

(** What [setup_mqtt] does once the address is known. *)
Lemma setup_mqtt_with_port (host port_text : string) (v : Z)
    (connect_res : Z) :
  strchr host ":"%char = None ->
  strtoul a port_text = (v, EmptyString) ->
  0 <= connect_res ->
  mqtt_init (Some (host ++ String ":"%char port_text)%string) true true
            connect_res =
  ([ mosquitto_lib_init; mosquitto_new true;
     mosquitto_connect host (to_int v) 3600;
     mosquitto_connect_callback_set; mosquitto_disconnect_callback_set;
     mosquitto_message_callback_set ], Returned tt).
Proof.
  intros Hhost Hp Hres. unfold mqtt_init, setup_mqtt.
  rewrite (strchr_after _ _ _ Hhost). cbn [next_char]. rewrite Hp.
  cbn [deref]. change (negb (0 =? 0)) with false. cbv iota.
  rewrite strndup_up_to_colon.
  apply Z.ltb_ge in Hres. cbn. now rewrite Hres.
Qed.

(** X14. A broker address written as a host without colon, a colon and a
    decimal numeral below 2^31 is read back as that host and that port:
    [mqtt_init] connects to them with a keep-alive of 3600 seconds and then
    installs the three callbacks. *)
Theorem broker_address_round_trip :
  forall (host ds : string) (connect_res : Z),
    strchr host ":"%char = None ->
    numeral ds = true ->
    decimal_value 0 ds < 2 ^ 31 ->
    0 <= connect_res ->
    mqtt_init (Some (host ++ String ":"%char ds)%string) true true
              connect_res =
    ([ mosquitto_lib_init; mosquitto_new true;
       mosquitto_connect host (decimal_value 0 ds) 3600;
       mosquitto_connect_callback_set; mosquitto_disconnect_callback_set;
       mosquitto_message_callback_set ], Returned tt).
Proof.
  intros host ds connect_res Hhost Hn Hlt Hres.
  pose proof (numeral_positive ds Hn) as Hpos.
  assert (Hp : strtoul a ds = (decimal_value 0 ds, EmptyString)).
  { rewrite <- (append_empty ds) at 1.
    apply strtoul_numeral; [exact Hn|reflexivity|].
    pose proof ULONG_MAX_at_least_32. lia. }
  rewrite (setup_mqtt_with_port host ds _ connect_res Hhost Hp Hres).
  replace (to_int (decimal_value 0 ds)) with (decimal_value 0 ds);
    [reflexivity|].
  unfold to_int.
  rewrite Z.mod_small by lia. lia.
Qed.

(** X15. The defaults of the broker address: without an address
    [mqtt_init] connects to localhost, port 1883; an address without colon
    is the host, with port 1883; and an address that ends in its colon is
    the host with port 0, the empty port being read as the number 0. *)
Theorem broker_address_defaults :
  forall (connect_res : Z) (strndup_ok : bool),
    0 <= connect_res ->
    mqtt_init None strndup_ok true connect_res =
      ([ mosquitto_lib_init; mosquitto_new true;
         mosquitto_connect "localhost" 1883 3600;
         mosquitto_connect_callback_set; mosquitto_disconnect_callback_set;
         mosquitto_message_callback_set ], Returned tt)
    /\ (forall broker : string,
          strchr broker ":"%char = None ->
          mqtt_init (Some broker) true true connect_res =
          ([ mosquitto_lib_init; mosquitto_new true;
             mosquitto_connect broker 1883 3600;
             mosquitto_connect_callback_set;
             mosquitto_disconnect_callback_set;
             mosquitto_message_callback_set ], Returned tt))
    /\ (forall host : string,
          strchr host ":"%char = None ->
          mqtt_init (Some (host ++ ":")%string) true true connect_res =
          ([ mosquitto_lib_init; mosquitto_new true;
             mosquitto_connect host 0 3600;
             mosquitto_connect_callback_set;
             mosquitto_disconnect_callback_set;
             mosquitto_message_callback_set ], Returned tt)).
Proof.
  intros connect_res strndup_ok Hres. pose proof Hres as Hlt.
  apply Z.ltb_ge in Hlt. split; [|split].
  - unfold mqtt_init, setup_mqtt. cbn. now rewrite Hlt.
  - intros broker Hb. unfold mqtt_init, setup_mqtt. rewrite Hb.
    rewrite strndup_whole. cbn. now rewrite Hlt.
  - intros host Hhost.
    assert (Hp : strtoul a EmptyString = (0, EmptyString))
      by (destruct a; reflexivity).
    apply (setup_mqtt_with_port host EmptyString 0 connect_res Hhost Hp Hres).
Qed.

(** X16. A port that is not wholly a number is refused before anything
    else happens: when [strtoul] stops before the end of the text after the
    colon, be it at a space, [mqtt_init] writes the invalid port to stderr
    and exits with status 1 without a call to libmosquitto. *)
Theorem invalid_port_exits_before_any_call :
  forall (host port_text : string) (v : Z) (end_ : string)
         (strndup_ok new_ok : bool) (connect_res : Z),
    strchr host ":"%char = None ->
    strtoul a port_text = (v, end_) ->
    deref end_ <> 0 ->
    mqtt_init (Some (host ++ String ":"%char port_text)%string)
              strndup_ok new_ok connect_res =
    ([ setup_stderr (invalid_port port_text) ], Exited 1).
Proof.
  intros host port_text v end_ strndup_ok new_ok connect_res Hhost Hp He.
  unfold mqtt_init, setup_mqtt.
  rewrite (strchr_after _ _ _ Hhost). cbn [next_char]. rewrite Hp.
  apply Z.eqb_neq in He. rewrite He. reflexivity.
Qed.

(** X17. [mqtt_init] installs the callbacks only when it returns. When it
    returns, [mosquitto_new] returned a pointer and [mosquitto_connect]
    returned a value that is not negative, which is all that [setup_mqtt]
    tests, and it has made, in this order, the calls [mosquitto_lib_init],
    [mosquitto_new], [mosquitto_connect] with a keep-alive of 3600 and the
    three callback registrations; when it does not return, the exit status
    is 1 and no callback was installed. *)
Theorem callbacks_installed_only_when_init_returns :
  forall (broker : option string) (strndup_ok new_ok : bool)
         (connect_res : Z),
    match mqtt_init broker strndup_ok new_ok connect_res with
    | (t, Returned _) =>
        new_ok = true /\ 0 <= connect_res
        /\ exists host port,
             t = [ mosquitto_lib_init; mosquitto_new true;
                   mosquitto_connect host port 3600;
                   mosquitto_connect_callback_set;
                   mosquitto_disconnect_callback_set;
                   mosquitto_message_callback_set ]
    | (t, Exited status) =>
        status = 1
        /\ ~ In mosquitto_connect_callback_set t
        /\ ~ In mosquitto_disconnect_callback_set t
        /\ ~ In mosquitto_message_callback_set t
    end.
Proof.
  intros broker strndup_ok new_ok connect_res.
  unfold mqtt_init, setup_mqtt.
  destruct broker as [broker|];
    [destruct (strchr broker ":"%char) as [colon|];
     [destruct (strtoul a (next_char colon)) as [v end_];
      destruct (negb (deref end_ =? 0))|];
     destruct strndup_ok|];
    destruct new_ok; destruct (Z.ltb_spec connect_res 0); cbn;
    repeat split; try lia; eauto;
    intros H0; repeat (destruct H0 as [H0|H0]; [discriminate|]); exact H0.
Qed.

(** ** Polling *)

Lemma receptions_app (t1 t2 : list poll_event) :
  receptions (t1 ++ t2) = receptions t1 ++ receptions t2.
Proof.
  induction t1 as [|x t1 IH]; [reflexivity|].
  destruct x; cbn; now rewrite IH.
Qed.

Lemma receptions_of_reception (t : list event) :
  receptions (map reception t) = t.
Proof. induction t as [|e t IH]; [reflexivity|]. cbn. now rewrite IH. Qed.

Lemma receptions_of_setup (t : list setup_action) :
  receptions (map setup t) = [].
Proof. induction t as [|x t IH]; [reflexivity|]. exact IH. Qed.

Lemma trace_run_operations_cons (o : operation) (os : list operation)
    (st : state) :
  trace (run_operations (o :: os)) st =
  trace (run_operation o) st
  ++ trace (run_operations os) (exec (run_operation o) st).
Proof.
  unfold trace, exec. cbn [run_operations]. unfold bind.
  destruct (run_operation o st) as [[u s1] t1]. cbn [fst snd].
  destruct (run_operations os s1) as [[u2 s2] t2]. reflexivity.
Qed.

Lemma disconnected_returns (result res : Z) :
  exists t, disconnected result res = (t, Returned tt).
Proof.
  unfold disconnected. destruct (res =? MOSQ_ERR_SUCCESS); cbn; eauto.
Qed.

Lemma connected_outcome (result res_epoch res_mined res_shutdown : Z) :
  snd (connected result res_epoch res_mined res_shutdown) =
  if connect_fails (on_connect result res_epoch res_mined res_shutdown)
  then Exited 1 else Returned tt.
Proof.
  unfold connected, connect_fails.
  destruct (result =? 0); [|reflexivity].
  rewrite !Z.leb_antisym.
  destruct (res_epoch <? 0); [reflexivity|].
  destruct (res_mined <? 0); [reflexivity|].
  destruct (res_shutdown <? 0); reflexivity.
Qed.

Lemma run_callbacks_returned (cbs : list callback) (st st' : state)
    (t : list poll_event) (u : unit) :
  run_callbacks cbs st = (t, st', Returned u) ->
  st' = exec (run_operations (messages cbs)) st
  /\ receptions t = trace (run_operations (messages cbs)) st.
Proof.
  revert st t. induction cbs as [|cb cbs IH]; intros st t H.
  - cbn in H. injection H as <- <- _. now split.
  - destruct cb as [topic payload|result r1 r2 r3|result res];
      cbn [run_callbacks messages] in H |- *.
    + rewrite exec_run_operations_cons, trace_run_operations_cons.
      cbn [run_operation]. unfold exec at 2, trace at 1, exec at 2.
      destruct (message topic payload st) as [[u1 st1] t1].
      cbn [fst snd].
      destruct (run_callbacks cbs st1) as [[t2 st2] o] eqn:R.
      injection H as <- <- ->.
      destruct (IH _ _ R) as [-> Ht]. split; [reflexivity|].
      now rewrite receptions_app, receptions_of_reception, Ht.
    + destruct (connected result r1 r2 r3) as [t1 [x|status]];
        [|discriminate].
      destruct (run_callbacks cbs st) as [[t2 st2] o] eqn:R.
      injection H as <- <- ->.
      destruct (IH _ _ R) as [-> Ht]. split; [reflexivity|].
      now rewrite receptions_app, receptions_of_setup.
    + destruct (disconnected_returns result res) as [t1 E].
      rewrite E in H.
      destruct (run_callbacks cbs st) as [[t2 st2] o] eqn:R.
      injection H as <- <- ->.
      destruct (IH _ _ R) as [-> Ht]. split; [reflexivity|].
      now rewrite receptions_app, receptions_of_setup.
Qed.

(** X18. When [mqtt_poll] returns, the variables are as after the messages
    that the library delivered during the poll, handled one after the other
    in the order of delivery, and the callbacks called are those of these
    messages in the same order; connect and disconnect callbacks in between
    change no variable. *)
Theorem poll_handles_messages_in_order :
  forall (do_wait : bool) (cbs : list callback) (res : Z) (st : state),
    snd (mqtt_poll do_wait cbs res st) = Returned tt ->
    snd (fst (mqtt_poll do_wait cbs res st)) =
      exec (run_operations (messages cbs)) st
    /\ receptions (fst (fst (mqtt_poll do_wait cbs res st))) =
       trace (run_operations (messages cbs)) st.
Proof.
  intros do_wait cbs res st. unfold mqtt_poll.
  destruct (run_callbacks cbs st) as [[t st'] [u|status]] eqn:R.
  - destruct (res <? 0); [discriminate|]. intros _. cbn [fst snd receptions].
    apply (run_callbacks_returned _ _ _ _ _ R).
  - discriminate.
Qed.

Lemma run_callbacks_outcome (cbs : list callback) (st : state) :
  snd (run_callbacks cbs st) =
  if existsb connect_fails cbs then Exited 1 else Returned tt.
Proof.
  revert st. induction cbs as [|cb cbs IH]; intros st; [reflexivity|].
  destruct cb as [topic payload|result r1 r2 r3|result res];
    cbn [run_callbacks existsb].
  - destruct (message topic payload st) as [[u1 st1] t1].
    specialize (IH st1).
    destruct (run_callbacks cbs st1) as [[t2 st2] o]. exact IH.
  - pose proof (connected_outcome result r1 r2 r3) as C.
    destruct (connected result r1 r2 r3) as [t1 o1]. cbn [snd] in C.
    destruct (connect_fails (on_connect result r1 r2 r3)); subst o1.
    + reflexivity.
    + specialize (IH st).
      destruct (run_callbacks cbs st) as [[t2 st2] o]. exact IH.
  - destruct (disconnected_returns result res) as [t1 ->].
    specialize (IH st).
    destruct (run_callbacks cbs st) as [[t2 st2] o]. exact IH.
Qed.

(** X19. [mqtt_poll] calls [mosquitto_loop] first, for one packet and with
    a timeout of 200 ms when asked to wait and of 0 otherwise. It ends the
    process, with status 1, exactly when a connect callback made during the
    loop fails (a non-zero result or a negative subscription result) or
    [mosquitto_loop] returns a negative value; a disconnect never ends it,
    whatever [mosquitto_reconnect] returns. *)
Theorem poll_exits_exactly_on_failure :
  forall (do_wait : bool) (cbs : list callback) (res : Z) (st : state),
    snd (mqtt_poll do_wait cbs res st) =
      (if existsb connect_fails cbs || (res <? 0)
       then Exited 1 else Returned tt)
    /\ hd_error (fst (fst (mqtt_poll do_wait cbs res st))) =
       Some (setup (mosquitto_loop (if do_wait then 200 else 0) 1)).
Proof.
  intros do_wait cbs res st. unfold mqtt_poll.
  pose proof (run_callbacks_outcome cbs st) as O.
  destruct (run_callbacks cbs st) as [[t st'] o]. cbn [snd] in O.
  destruct (existsb connect_fails cbs); subst o.
  - split; reflexivity.
  - cbn [orb]. destruct (res <? 0); split; reflexivity.
Qed.

End Mqtt.

(** * Concrete runs

    The statements above at concrete payloads, with [sample_code] for the
    lookup, 0 for [da_ethash] and the LP64 data model. *)

(** C1: the payload made of a number and a name that the lookup resolves is
    dropped, because [process_epoch] looks for the name after a second
    space; [curr_algo] and [curr_epoch] keep their values. *)
Lemma epoch_number_and_name_dropped :
  sample_code "ethash" = 0
  /\ strtoul LP64 (cstr "5 ethash") = (5, " ethash")
  /\ message LP64 sample_code 0 MQTT_TOPIC_EPOCH "5 ethash" sample_state =
     (tt, sample_state,
      [ {| seen := sample_state; act := Stderr algorithm_name_missing |} ])
  /\ curr_algo (exec (message LP64 sample_code 0 MQTT_TOPIC_EPOCH "5 ethash")
                     sample_state) <> 0
  /\ curr_epoch (exec (message LP64 sample_code 0 MQTT_TOPIC_EPOCH "5 ethash")
                      sample_state) <> 5.
Proof. repeat split; try reflexivity; cbv; discriminate. Qed.

Lemma epoch_payload_decoded_witness :
  strtoul LP64 (cstr "5 ETC etchash") = (5, " ETC etchash")
  /\ sample_code "etchash" = 1
  /\ curr_algo (exec (message LP64 sample_code 0 MQTT_TOPIC_EPOCH
                              "5 ETC etchash") sample_state) = 1
  /\ curr_epoch (exec (message LP64 sample_code 0 MQTT_TOPIC_EPOCH
                               "5 ETC etchash") sample_state) = 5.
Proof.
  split; [reflexivity|split; [reflexivity|]].
  destruct (epoch_payload_decoded LP64 sample_code 0 sample_state
              "5 ETC etchash" 5 " ETC etchash" eq_refl) as (_ & H & _).
  destruct (H "ETC" "etchash" eq_refl eq_refl) as [H1 _].
  destruct (H1 ltac:(cbv; discriminate)) as [Ha He].
  split; [exact Ha | apply He; reflexivity].
Defined.

(** C2: a payload that leaves [hold] as it was still calls the callback
    registered for the mined state. *)
Lemma mined_state_unchanged_still_notifies :
  hold sample_state = false
  /\ (strncmp HOLD_STATE (cstr "other") (String.length HOLD_STATE) =? 0)
     = false
  /\ hold (exec (message LP64 sample_code 0 MQTT_TOPIC_MINED_STATE "other")
                sample_state) = false
  /\ calls (trace (message LP64 sample_code 0 MQTT_TOPIC_MINED_STATE "other")
                  sample_state) = [(200, 8)].
Proof. repeat split. Qed.

(** C3, the failing input. Where [unsigned long] has 64 bits the payload
    4294967296 parses as that number, which is not zero, but the 32 bits of
    the [unsigned n] of [message] keep 0 of it: [shutdown_pending] is set to
    false, also when it was true, and the callbacks are called. Where
    [unsigned long] has 32 bits [strtoul] returns [ULONG_MAX] for the same
    payload and the flag is set. *)
Theorem shutdown_4294967296_not_pending :
  forall (dagalgo_code : string -> Z) (da_ethash : Z) (st : state),
    strtoul LP64 (cstr "4294967296") = (4294967296, EmptyString)
    /\ 4294967296 <> 0
    /\ message LP64 dagalgo_code da_ethash MQTT_TOPIC_SHUTDOWN "4294967296" st =
       (tt, set_shutdown_pending false st,
        notified mqtt_notify_shutdown (set_shutdown_pending false st))
    /\ shutdown_pending
         (exec (message LP64 sample_code 0 MQTT_TOPIC_SHUTDOWN "4294967296")
               (set_shutdown_pending true sample_state)) = false
    /\ message ILP32 dagalgo_code da_ethash MQTT_TOPIC_SHUTDOWN "4294967296" st =
       (tt, set_shutdown_pending true st,
        notified mqtt_notify_shutdown (set_shutdown_pending true st)).
Proof.
  intros dagalgo_code da_ethash st.
  split; [reflexivity|split; [discriminate|split; [|split]]].
  - apply (message_shutdown_run LP64 dagalgo_code da_ethash "4294967296" st
             4294967296 EmptyString eq_refl (or_introl eq_refl)).
  - reflexivity.
  - apply (message_shutdown_run ILP32 dagalgo_code da_ethash "4294967296" st
             4294967295 EmptyString eq_refl (or_introl eq_refl)).
Qed.

Lemma shutdown_always_notifies_witness :
  strtoul LP64 (cstr "1") = (1, EmptyString)
  /\ shutdown_pending
       (exec (message LP64 sample_code 0 MQTT_TOPIC_SHUTDOWN "1")
             (set_shutdown_pending true sample_state)) = true
  /\ calls (trace (message LP64 sample_code 0 MQTT_TOPIC_SHUTDOWN "1")
                  (set_shutdown_pending true sample_state)) = [(300, 9)].
Proof.
  split; [reflexivity|].
  destruct (shutdown_always_notifies LP64 sample_code 0
              (set_shutdown_pending true sample_state) "1" 1 EmptyString
              eq_refl (or_introl eq_refl)) as (H1 & H2 & _).
  split.
  - unfold exec. rewrite H1. reflexivity.
  - rewrite H2. reflexivity.
Defined.

Lemma number_with_trailing_garbage_dropped_witness :
  strtoul LP64 (cstr "12x") = (12, "x")
  /\ exec (message LP64 sample_code 0 MQTT_TOPIC_SHUTDOWN "12x") sample_state
     = sample_state
  /\ calls (trace (message LP64 sample_code 0 MQTT_TOPIC_SHUTDOWN "12x")
                  sample_state) = [].
Proof.
  split; [reflexivity|].
  destruct (number_with_trailing_garbage_dropped LP64 sample_code 0
              sample_state MQTT_TOPIC_SHUTDOWN "12x" 12 "x"
              (or_intror eq_refl) eq_refl
              ltac:(cbv; discriminate) ltac:(cbv; discriminate))
    as (_ & H1 & H2 & _).
  split; [exact H1 | exact H2].
Defined.

(** C6: payloads without a digit that are not dropped. One space on the
    shutdown topic clears [shutdown_pending] and calls the callback; a space,
    a word and a known name on the epoch topic set [curr_algo] and call the
    callback. *)
Lemma space_payload_handled_as_zero :
  no_digits " " = true
  /\ shutdown_pending (set_shutdown_pending true sample_state) = true
  /\ shutdown_pending
       (exec (message LP64 sample_code 0 MQTT_TOPIC_SHUTDOWN " ")
             (set_shutdown_pending true sample_state)) = false
  /\ calls (trace (message LP64 sample_code 0 MQTT_TOPIC_SHUTDOWN " ")
                  (set_shutdown_pending true sample_state)) = [(300, 9)]
  /\ no_digits " ETC etchash" = true
  /\ curr_algo sample_state = -1
  /\ curr_algo
       (exec (message LP64 sample_code 0 MQTT_TOPIC_EPOCH " ETC etchash")
             sample_state) = 1
  /\ calls (trace (message LP64 sample_code 0 MQTT_TOPIC_EPOCH " ETC etchash")
                  sample_state) = [(100, 7)].
Proof. repeat split. Qed.

Lemma payload_without_digits_witness :
  no_digits " ETC etchash" = true
  /\ exec (message LP64 sample_code 0 MQTT_TOPIC_EPOCH " ETC etchash")
          sample_state =
     set_curr_epoch 0 (set_curr_algo 1 sample_state)
  /\ calls (trace (message LP64 sample_code 0 MQTT_TOPIC_EPOCH " ETC etchash")
                  sample_state) = [(100, 7)]
  /\ message LP64 sample_code 0 MQTT_TOPIC_SHUTDOWN " ETC etchash"
             sample_state =
     (tt, set_shutdown_pending false sample_state,
      notified mqtt_notify_shutdown
               (set_shutdown_pending false sample_state))
  /\ message LP64 sample_code 0 MQTT_TOPIC_EPOCH " etchash" sample_state =
     (tt, sample_state,
      [ {| seen := sample_state; act := Stderr algorithm_name_missing |} ]).
Proof.
  split; [reflexivity|].
  destruct (payload_without_digits LP64 sample_code 0 sample_state
              " ETC etchash" eq_refl) as (_ & _ & Hs & _ & _ & Hn).
  destruct (Hn "ETC" "etchash" eq_refl eq_refl) as [_ Hk].
  destruct (Hk ltac:(cbv; discriminate)) as [He Hc].
  split; [exact He|split; [exact Hc|split]].
  - apply Hs. right. reflexivity.
  - destruct (payload_without_digits LP64 sample_code 0 sample_state
                " etchash" eq_refl) as (_ & _ & _ & _ & H1 & _).
    apply (H1 "etchash"); reflexivity.
Defined.

Lemma status_rate_limited_to_one_per_second_witness :
  last initial_state <> 1700000000
  /\ published (trace (mqtt_status 1700000000 0 "first" false ;;
                       mqtt_status 1700000000 0 "second" false)
                      initial_state) = ["first"]
  /\ NoDup (delivery_times
              [ {| call_time := 1700000000; call_res := 0;
                   call_text := "a"; call_flush := false |};
                {| call_time := 1700000000; call_res := 0;
                   call_text := "b"; call_flush := false |};
                {| call_time := 1700000001; call_res := 0;
                   call_text := "c"; call_flush := false |} ]
              initial_state).
Proof.
  destruct (status_rate_limited_to_one_per_second initial_state 1700000000
              0 0 "first" "second") as (H1 & _ & _ & H4).
  split; [cbv; discriminate|split].
  - apply H1. cbv; discriminate.
  - apply H4; reflexivity.
Defined.

Lemma curr_algo_set_once_then_only_by_epoch_witness :
  0 <> -1
  /\ decode_epoch LP64 sample_code 0 "5 ETC etchash" = inr (5, 1)
  /\ curr_algo
       (exec (run_operations LP64 sample_code 0
                [ op_message MQTT_TOPIC_EPOCH "5 ETC etchash";
                  op_message MQTT_TOPIC_SHUTDOWN "1";
                  op_message MQTT_TOPIC_EPOCH "6 ETC nohash";
                  op_status 1700000000 0 "ok" false ])
             sample_state) <> -1.
Proof.
  split; [cbv; discriminate|split; [reflexivity|]].
  destruct (curr_algo_set_once_then_only_by_epoch LP64 sample_code 0
              ltac:(cbv; discriminate)) as (_ & _ & H).
  apply (H sample_state "5 ETC etchash" 5 1). reflexivity.
Defined.

Lemma status_timestamp_set_before_publish_witness :
  (1700000000 <> last initial_state \/ false = true)
  /\ last (exec (mqtt_status 1700000000 14 "cache" false) initial_state)
     = 1700000000
  /\ mqtt_status 1700000000 0 "cache" false
       (exec (mqtt_status 1700000000 14 "cache" false) initial_state)
     = (tt, exec (mqtt_status 1700000000 14 "cache" false) initial_state, []).
Proof.
  assert (G : 1700000000 <> last initial_state \/ false = true)
    by (left; cbv; discriminate).
  split; [exact G|].
  destruct (status_timestamp_set_before_publish initial_state 1700000000 14
              "cache" false G) as (H1 & _ & H3).
  split; [exact H1 | apply H3].
Defined.
(** ** Further concrete runs *)

Lemma message_never_aborts_witness :
  In {| seen := set_shutdown_pending true sample_state; act := Call 300 9 |}
     (trace (message LP64 sample_code 0 MQTT_TOPIC_SHUTDOWN "1") sample_state)
  /\ Call 300 9 <> Abort.
Proof.
  split; [now left|].
  apply (message_never_aborts LP64 sample_code 0 MQTT_TOPIC_SHUTDOWN "1"
           sample_state
           {| seen := set_shutdown_pending true sample_state;
              act := Call 300 9 |}).
  now left.
Defined.

Lemma callbacks_see_the_final_variables_witness :
  In {| seen := set_hold true sample_state; act := Call 200 8 |}
     (trace (message LP64 sample_code 0 MQTT_TOPIC_MINED_STATE
                     "epoch_upload 5") sample_state)
  /\ set_hold true sample_state =
     exec (message LP64 sample_code 0 MQTT_TOPIC_MINED_STATE
                   "epoch_upload 5") sample_state.
Proof.
  assert (H : In {| seen := set_hold true sample_state; act := Call 200 8 |}
                 (trace (message LP64 sample_code 0 MQTT_TOPIC_MINED_STATE
                                 "epoch_upload 5") sample_state))
    by (right; now left).
  split; [exact H|].
  apply (callbacks_see_the_final_variables LP64 sample_code 0
           MQTT_TOPIC_MINED_STATE "epoch_upload 5" sample_state _ 200 8 H).
  reflexivity.
Defined.

Lemma epoch_message_repeated_in_range_witness :
  decode_epoch LP64 sample_code 0 "5 ETC etchash" = inr (5, 1)
  /\ calls (trace (message LP64 sample_code 0 MQTT_TOPIC_EPOCH
                           "5 ETC etchash")
                  (exec (message LP64 sample_code 0 MQTT_TOPIC_EPOCH
                                 "5 ETC etchash") sample_state)) = [].
Proof.
  split; [reflexivity|].
  apply (epoch_message_repeated_in_range LP64 sample_code 0 sample_state
           "5 ETC etchash").
  reflexivity.
Defined.

Lemma epoch_notifies_exactly_on_change_witness :
  decode_epoch LP64 sample_code 0 "7" = inr (7, 0)
  /\ (exec (message LP64 sample_code 0 MQTT_TOPIC_EPOCH "7") sample_state
      = sample_state
      /\ calls (trace (message LP64 sample_code 0 MQTT_TOPIC_EPOCH "7")
                      sample_state) = []
      \/ exec (message LP64 sample_code 0 MQTT_TOPIC_EPOCH "7") sample_state
         <> sample_state
         /\ calls (trace (message LP64 sample_code 0 MQTT_TOPIC_EPOCH "7")
                         sample_state) =
            map (fun s => (sub_fn s, sub_user s))
                (subscribers mqtt_notify_epoch sample_state)).
Proof.
  split; [reflexivity|].
  apply (epoch_notifies_exactly_on_change LP64 sample_code 0 sample_state
           "7").
  reflexivity.
Defined.

Lemma curr_epoch_stays_16_bit_witness :
  0 <= curr_epoch sample_state < 65536
  /\ 0 <= curr_epoch
            (exec (run_operations LP64 sample_code 0
                     [ op_message MQTT_TOPIC_EPOCH "70000";
                       op_status 1700000000 0 "ok" false ])
                  sample_state) < 65536.
Proof.
  assert (H : 0 <= curr_epoch sample_state < 65536) by (cbn; lia).
  split; [exact H|].
  apply (curr_epoch_stays_16_bit LP64 sample_code 0 _ sample_state H).
Defined.

Lemma every_called_second_delivers_witness :
  7 <> last initial_state
  /\ In 7 (delivery_times
             [ {| call_time := 9; call_res := 0; call_text := "a";
                  call_flush := false |};
               {| call_time := 7; call_res := 3; call_text := "b";
                  call_flush := false |};
               {| call_time := 9; call_res := 0; call_text := "c";
                  call_flush := true |} ]
             initial_state).
Proof.
  assert (H : 7 <> last initial_state) by (cbn; discriminate).
  split; [exact H|].
  apply every_called_second_delivers; [|exact H].
  right. now left.
Defined.

Lemma shutdown_numeral_sets_pending_witness :
  numeral "42" = true
  /\ decimal_value 0 "42" < 2 ^ 32
  /\ message ILP32 sample_code 0 MQTT_TOPIC_SHUTDOWN "42" sample_state =
     (tt, set_shutdown_pending true sample_state,
      notified mqtt_notify_shutdown (set_shutdown_pending true sample_state)).
Proof.
  split; [reflexivity|split; [reflexivity|]].
  apply (shutdown_numeral_sets_pending ILP32 sample_code 0 sample_state "42");
    reflexivity.
Defined.

Lemma connected_subscribes_or_exits_witness :
  (0 = 0 /\ 0 <= 0 /\ 0 <= 3 /\ 0 <= 0)
  /\ connected 0 0 3 0 =
     ([ mosquitto_subscribe MQTT_TOPIC_EPOCH 1;
        mosquitto_subscribe MQTT_TOPIC_MINED_STATE 0;
        mosquitto_subscribe MQTT_TOPIC_SHUTDOWN 1 ], Returned tt)
  /\ snd (connected 0 0 (-1) 0) = Exited 1.
Proof.
  assert (H : 0 = 0 /\ 0 <= 0 /\ 0 <= 3 /\ 0 <= 0) by (repeat split; lia).
  split; [exact H|split].
  - apply (connected_subscribes_or_exits 0 0 3 0). exact H.
  - apply (connected_subscribes_or_exits 0 0 (-1) 0). right. right. left.
    lia.
Defined.

Lemma broker_address_round_trip_witness :
  strchr "broker.lan" ":"%char = None
  /\ numeral "1884" = true
  /\ mqtt_init LP64 (Some "broker.lan:1884") true true 0 =
     ([ mosquitto_lib_init; mosquitto_new true;
        mosquitto_connect "broker.lan" 1884 3600;
        mosquitto_connect_callback_set; mosquitto_disconnect_callback_set;
        mosquitto_message_callback_set ], Returned tt).
Proof.
  split; [reflexivity|split; [reflexivity|]].
  apply (broker_address_round_trip LP64 "broker.lan" "1884" 0);
    try reflexivity; lia.
Defined.

Lemma broker_address_defaults_witness :
  0 <= 0
  /\ mqtt_init LP64 (Some "broker.lan") true true 0 =
     ([ mosquitto_lib_init; mosquitto_new true;
        mosquitto_connect "broker.lan" 1883 3600;
        mosquitto_connect_callback_set; mosquitto_disconnect_callback_set;
        mosquitto_message_callback_set ], Returned tt).
Proof.
  assert (H : 0 <= 0) by lia.
  split; [exact H|].
  destruct (broker_address_defaults LP64 0 true H) as (_ & H2 & _).
  apply (H2 "broker.lan"). reflexivity.
Defined.

Lemma invalid_port_exits_before_any_call_witness :
  strtoul LP64 "18 " = (18, " ")
  /\ mqtt_init LP64 (Some "h:18 ") true true 0 =
     ([ setup_stderr (invalid_port "18 ") ], Exited 1).
Proof.
  split; [reflexivity|].
  apply (invalid_port_exits_before_any_call LP64 "h" "18 " 18 " " true true 0);
    [reflexivity|reflexivity|cbv; discriminate].
Defined.

Lemma poll_handles_messages_in_order_witness :
  snd (mqtt_poll LP64 sample_code 0 true
         [ on_message MQTT_TOPIC_SHUTDOWN "1"; on_disconnect 7 14;
           on_connect 0 0 0 0; on_message MQTT_TOPIC_EPOCH "7" ]
         0 sample_state) = Returned tt
  /\ snd (fst (mqtt_poll LP64 sample_code 0 true
                 [ on_message MQTT_TOPIC_SHUTDOWN "1"; on_disconnect 7 14;
                   on_connect 0 0 0 0; on_message MQTT_TOPIC_EPOCH "7" ]
                 0 sample_state)) =
     exec (run_operations LP64 sample_code 0
             [ op_message MQTT_TOPIC_SHUTDOWN "1";
               op_message MQTT_TOPIC_EPOCH "7" ]) sample_state.
Proof.
  split; [reflexivity|].
  apply (poll_handles_messages_in_order LP64 sample_code 0 true
           [ on_message MQTT_TOPIC_SHUTDOWN "1"; on_disconnect 7 14;
             on_connect 0 0 0 0; on_message MQTT_TOPIC_EPOCH "7" ]
           0 sample_state).
  reflexivity.
Defined.
